(** * Verification of the chatbot's response selection and logging

    Shallow embedding of [chatbot_app.py]: the matcher [get_bot_response],
    the route handler [chat] and the table created by [init_db], together
    with the pieces of the Python runtime they rely on ([str.lower], the
    [in] operator on strings, [re.search], [date.strftime] and the SQLite
    [INSERT] into an [AUTOINCREMENT] table).

    A Python [str] is a sequence of Unicode code points; it is modelled as
    a list of code points of type [N].  Literals of the source are written
    as UTF-8 string literals and decoded by [U]. *)

From Stdlib Require Import Strings.String Strings.Ascii.
From Stdlib Require Import NArith ZArith Arith Bool List Lia.
From Stdlib Require Import Floats.SpecFloat.
From Stdlib Require Import DecimalN DecimalFacts.
Import ListNotations.

Local Open Scope N_scope.

(** ** Python strings *)

Definition str := list N.

Module Utf8.

(** Decoder for the UTF-8 bytes of the source's literals (well-formed
    input only; used to write the literals of the program). *)
Fixpoint decode (bs : list N) : str :=
  match bs with
  | [] => []
  | b0 :: t0 =>
    if b0 <? 0x80 then b0 :: decode t0
    else
      match t0 with
      | [] => []
      | b1 :: t1 =>
        if b0 <? 0xE0 then ((b0 - 0xC0) * 0x40 + (b1 - 0x80)) :: decode t1
        else
          match t1 with
          | [] => []
          | b2 :: t2 =>
            if b0 <? 0xF0
            then ((b0 - 0xE0) * 0x1000 + (b1 - 0x80) * 0x40 + (b2 - 0x80)) :: decode t2
            else
              match t2 with
              | [] => []
              | b3 :: t3 =>
                ((b0 - 0xF0) * 0x40000 + (b1 - 0x80) * 0x1000
                 + (b2 - 0x80) * 0x40 + (b3 - 0x80)) :: decode t3
              end
          end
      end
  end.

End Utf8.

(** [U "..."] is the Python string whose source text is the literal. *)
Definition U (s : string) : str :=
  Utf8.decode (map N_of_ascii (list_ascii_of_string s)).
Arguments U s%_string : simpl never.

(** [s.startswith(prefix)] *)
Fixpoint startswith (s prefix : str) : bool :=
  match prefix, s with
  | [], _ => true
  | _ :: _, [] => false
  | p :: prefix', c :: s' => (c =? p) && startswith s' prefix'
  end.

(** [sub in s]: [sub] occurs in [s] as a contiguous run of code points. *)
Fixpoint contains (s sub : str) : bool :=
  startswith s sub ||
  match s with
  | [] => false
  | _ :: s' => contains s' sub
  end.

(** [any(keyword in user_message for keyword in keywords)] *)
Definition any_in (keywords : list str) (user_message : str) : bool :=
  existsb (contains user_message) keywords.

(** ** The Unicode data behind [str.lower] and [\b]

    The tables are those of the Unicode Character Database 14.0.0 as
    shipped in CPython 3.11 ([unicodedata.unidata_version]), stored as
    inclusive code point ranges. *)

Module Unicode.

Definition in_ranges (rs : list (N * N)) (c : N) : bool :=
  existsb (fun r => (fst r <=? c) && (c <=? snd r)) rs.

(** Code points with the derived property [Cased] ([_PyUnicode_IsCased]). *)
Definition cased_ranges : list (N * N) :=
  [ (0x41, 0x5A); (0x61, 0x7A); (0xAA, 0xAA); (0xB5, 0xB5); (0xBA, 0xBA); (0xC0, 0xD6);
    (0xD8, 0xF6); (0xF8, 0x1BA); (0x1BC, 0x1BF); (0x1C4, 0x293); (0x295, 0x2B8);
    (0x2C0, 0x2C1); (0x2E0, 0x2E4); (0x345, 0x345); (0x370, 0x373); (0x376, 0x377);
    (0x37A, 0x37D); (0x37F, 0x37F); (0x386, 0x386); (0x388, 0x38A); (0x38C, 0x38C);
    (0x38E, 0x3A1); (0x3A3, 0x3F5); (0x3F7, 0x481); (0x48A, 0x52F); (0x531, 0x556);
    (0x560, 0x588); (0x10A0, 0x10C5); (0x10C7, 0x10C7); (0x10CD, 0x10CD); (0x10D0, 0x10FA);
    (0x10FD, 0x10FF); (0x13A0, 0x13F5); (0x13F8, 0x13FD); (0x1C80, 0x1C88); (0x1C90, 0x1CBA);
    (0x1CBD, 0x1CBF); (0x1D00, 0x1DBF); (0x1E00, 0x1F15); (0x1F18, 0x1F1D); (0x1F20, 0x1F45);
    (0x1F48, 0x1F4D); (0x1F50, 0x1F57); (0x1F59, 0x1F59); (0x1F5B, 0x1F5B); (0x1F5D, 0x1F5D);
    (0x1F5F, 0x1F7D); (0x1F80, 0x1FB4); (0x1FB6, 0x1FBC); (0x1FBE, 0x1FBE); (0x1FC2, 0x1FC4);
    (0x1FC6, 0x1FCC); (0x1FD0, 0x1FD3); (0x1FD6, 0x1FDB); (0x1FE0, 0x1FEC); (0x1FF2, 0x1FF4);
    (0x1FF6, 0x1FFC); (0x2071, 0x2071); (0x207F, 0x207F); (0x2090, 0x209C); (0x2102, 0x2102);
    (0x2107, 0x2107); (0x210A, 0x2113); (0x2115, 0x2115); (0x2119, 0x211D); (0x2124, 0x2124);
    (0x2126, 0x2126); (0x2128, 0x2128); (0x212A, 0x212D); (0x212F, 0x2134); (0x2139, 0x2139);
    (0x213C, 0x213F); (0x2145, 0x2149); (0x214E, 0x214E); (0x2160, 0x217F); (0x2183, 0x2184);
    (0x24B6, 0x24E9); (0x2C00, 0x2CE4); (0x2CEB, 0x2CEE); (0x2CF2, 0x2CF3); (0x2D00, 0x2D25);
    (0x2D27, 0x2D27); (0x2D2D, 0x2D2D); (0xA640, 0xA66D); (0xA680, 0xA69D); (0xA722, 0xA787);
    (0xA78B, 0xA78E); (0xA790, 0xA7CA); (0xA7D0, 0xA7D1); (0xA7D3, 0xA7D3); (0xA7D5, 0xA7D9);
    (0xA7F5, 0xA7F6); (0xA7F8, 0xA7FA); (0xAB30, 0xAB5A); (0xAB5C, 0xAB68); (0xAB70, 0xABBF);
    (0xFB00, 0xFB06); (0xFB13, 0xFB17); (0xFF21, 0xFF3A); (0xFF41, 0xFF5A); (0x10400, 0x1044F);
    (0x104B0, 0x104D3); (0x104D8, 0x104FB); (0x10570, 0x1057A); (0x1057C, 0x1058A);
    (0x1058C, 0x10592); (0x10594, 0x10595); (0x10597, 0x105A1); (0x105A3, 0x105B1);
    (0x105B3, 0x105B9); (0x105BB, 0x105BC); (0x10780, 0x10780); (0x10783, 0x10785);
    (0x10787, 0x107B0); (0x107B2, 0x107BA); (0x10C80, 0x10CB2); (0x10CC0, 0x10CF2);
    (0x118A0, 0x118DF); (0x16E40, 0x16E7F); (0x1D400, 0x1D454); (0x1D456, 0x1D49C);
    (0x1D49E, 0x1D49F); (0x1D4A2, 0x1D4A2); (0x1D4A5, 0x1D4A6); (0x1D4A9, 0x1D4AC);
    (0x1D4AE, 0x1D4B9); (0x1D4BB, 0x1D4BB); (0x1D4BD, 0x1D4C3); (0x1D4C5, 0x1D505);
    (0x1D507, 0x1D50A); (0x1D50D, 0x1D514); (0x1D516, 0x1D51C); (0x1D51E, 0x1D539);
    (0x1D53B, 0x1D53E); (0x1D540, 0x1D544); (0x1D546, 0x1D546); (0x1D54A, 0x1D550);
    (0x1D552, 0x1D6A5); (0x1D6A8, 0x1D6C0); (0x1D6C2, 0x1D6DA); (0x1D6DC, 0x1D6FA);
    (0x1D6FC, 0x1D714); (0x1D716, 0x1D734); (0x1D736, 0x1D74E); (0x1D750, 0x1D76E);
    (0x1D770, 0x1D788); (0x1D78A, 0x1D7A8); (0x1D7AA, 0x1D7C2); (0x1D7C4, 0x1D7CB);
    (0x1DF00, 0x1DF09); (0x1DF0B, 0x1DF1E); (0x1E900, 0x1E943); (0x1F130, 0x1F149);
    (0x1F150, 0x1F169); (0x1F170, 0x1F189) ].

(** Code points with the derived property [Case_Ignorable]
    ([_PyUnicode_IsCaseIgnorable]). *)
Definition case_ignorable_ranges : list (N * N) :=
  [ (0x27, 0x27); (0x2E, 0x2E); (0x3A, 0x3A); (0x5E, 0x5E); (0x60, 0x60); (0xA8, 0xA8);
    (0xAD, 0xAD); (0xAF, 0xAF); (0xB4, 0xB4); (0xB7, 0xB8); (0x2B0, 0x36F); (0x374, 0x375);
    (0x37A, 0x37A); (0x384, 0x385); (0x387, 0x387); (0x483, 0x489); (0x559, 0x559);
    (0x55F, 0x55F); (0x591, 0x5BD); (0x5BF, 0x5BF); (0x5C1, 0x5C2); (0x5C4, 0x5C5);
    (0x5C7, 0x5C7); (0x5F4, 0x5F4); (0x600, 0x605); (0x610, 0x61A); (0x61C, 0x61C);
    (0x640, 0x640); (0x64B, 0x65F); (0x670, 0x670); (0x6D6, 0x6DD); (0x6DF, 0x6E8);
    (0x6EA, 0x6ED); (0x70F, 0x70F); (0x711, 0x711); (0x730, 0x74A); (0x7A6, 0x7B0);
    (0x7EB, 0x7F5); (0x7FA, 0x7FA); (0x7FD, 0x7FD); (0x816, 0x82D); (0x859, 0x85B);
    (0x888, 0x888); (0x890, 0x891); (0x898, 0x89F); (0x8C9, 0x902); (0x93A, 0x93A);
    (0x93C, 0x93C); (0x941, 0x948); (0x94D, 0x94D); (0x951, 0x957); (0x962, 0x963);
    (0x971, 0x971); (0x981, 0x981); (0x9BC, 0x9BC); (0x9C1, 0x9C4); (0x9CD, 0x9CD);
    (0x9E2, 0x9E3); (0x9FE, 0x9FE); (0xA01, 0xA02); (0xA3C, 0xA3C); (0xA41, 0xA42);
    (0xA47, 0xA48); (0xA4B, 0xA4D); (0xA51, 0xA51); (0xA70, 0xA71); (0xA75, 0xA75);
    (0xA81, 0xA82); (0xABC, 0xABC); (0xAC1, 0xAC5); (0xAC7, 0xAC8); (0xACD, 0xACD);
    (0xAE2, 0xAE3); (0xAFA, 0xAFF); (0xB01, 0xB01); (0xB3C, 0xB3C); (0xB3F, 0xB3F);
    (0xB41, 0xB44); (0xB4D, 0xB4D); (0xB55, 0xB56); (0xB62, 0xB63); (0xB82, 0xB82);
    (0xBC0, 0xBC0); (0xBCD, 0xBCD); (0xC00, 0xC00); (0xC04, 0xC04); (0xC3C, 0xC3C);
    (0xC3E, 0xC40); (0xC46, 0xC48); (0xC4A, 0xC4D); (0xC55, 0xC56); (0xC62, 0xC63);
    (0xC81, 0xC81); (0xCBC, 0xCBC); (0xCBF, 0xCBF); (0xCC6, 0xCC6); (0xCCC, 0xCCD);
    (0xCE2, 0xCE3); (0xD00, 0xD01); (0xD3B, 0xD3C); (0xD41, 0xD44); (0xD4D, 0xD4D);
    (0xD62, 0xD63); (0xD81, 0xD81); (0xDCA, 0xDCA); (0xDD2, 0xDD4); (0xDD6, 0xDD6);
    (0xE31, 0xE31); (0xE34, 0xE3A); (0xE46, 0xE4E); (0xEB1, 0xEB1); (0xEB4, 0xEBC);
    (0xEC6, 0xEC6); (0xEC8, 0xECD); (0xF18, 0xF19); (0xF35, 0xF35); (0xF37, 0xF37);
    (0xF39, 0xF39); (0xF71, 0xF7E); (0xF80, 0xF84); (0xF86, 0xF87); (0xF8D, 0xF97);
    (0xF99, 0xFBC); (0xFC6, 0xFC6); (0x102D, 0x1030); (0x1032, 0x1037); (0x1039, 0x103A);
    (0x103D, 0x103E); (0x1058, 0x1059); (0x105E, 0x1060); (0x1071, 0x1074); (0x1082, 0x1082);
    (0x1085, 0x1086); (0x108D, 0x108D); (0x109D, 0x109D); (0x10FC, 0x10FC); (0x135D, 0x135F);
    (0x1712, 0x1714); (0x1732, 0x1733); (0x1752, 0x1753); (0x1772, 0x1773); (0x17B4, 0x17B5);
    (0x17B7, 0x17BD); (0x17C6, 0x17C6); (0x17C9, 0x17D3); (0x17D7, 0x17D7); (0x17DD, 0x17DD);
    (0x180B, 0x180F); (0x1843, 0x1843); (0x1885, 0x1886); (0x18A9, 0x18A9); (0x1920, 0x1922);
    (0x1927, 0x1928); (0x1932, 0x1932); (0x1939, 0x193B); (0x1A17, 0x1A18); (0x1A1B, 0x1A1B);
    (0x1A56, 0x1A56); (0x1A58, 0x1A5E); (0x1A60, 0x1A60); (0x1A62, 0x1A62); (0x1A65, 0x1A6C);
    (0x1A73, 0x1A7C); (0x1A7F, 0x1A7F); (0x1AA7, 0x1AA7); (0x1AB0, 0x1ACE); (0x1B00, 0x1B03);
    (0x1B34, 0x1B34); (0x1B36, 0x1B3A); (0x1B3C, 0x1B3C); (0x1B42, 0x1B42); (0x1B6B, 0x1B73);
    (0x1B80, 0x1B81); (0x1BA2, 0x1BA5); (0x1BA8, 0x1BA9); (0x1BAB, 0x1BAD); (0x1BE6, 0x1BE6);
    (0x1BE8, 0x1BE9); (0x1BED, 0x1BED); (0x1BEF, 0x1BF1); (0x1C2C, 0x1C33); (0x1C36, 0x1C37);
    (0x1C78, 0x1C7D); (0x1CD0, 0x1CD2); (0x1CD4, 0x1CE0); (0x1CE2, 0x1CE8); (0x1CED, 0x1CED);
    (0x1CF4, 0x1CF4); (0x1CF8, 0x1CF9); (0x1D2C, 0x1D6A); (0x1D78, 0x1D78); (0x1D9B, 0x1DFF);
    (0x1FBD, 0x1FBD); (0x1FBF, 0x1FC1); (0x1FCD, 0x1FCF); (0x1FDD, 0x1FDF); (0x1FED, 0x1FEF);
    (0x1FFD, 0x1FFE); (0x200B, 0x200F); (0x2018, 0x2019); (0x2024, 0x2024); (0x2027, 0x2027);
    (0x202A, 0x202E); (0x2060, 0x2064); (0x2066, 0x206F); (0x2071, 0x2071); (0x207F, 0x207F);
    (0x2090, 0x209C); (0x20D0, 0x20F0); (0x2C7C, 0x2C7D); (0x2CEF, 0x2CF1); (0x2D6F, 0x2D6F);
    (0x2D7F, 0x2D7F); (0x2DE0, 0x2DFF); (0x2E2F, 0x2E2F); (0x3005, 0x3005); (0x302A, 0x302D);
    (0x3031, 0x3035); (0x303B, 0x303B); (0x3099, 0x309E); (0x30FC, 0x30FE); (0xA015, 0xA015);
    (0xA4F8, 0xA4FD); (0xA60C, 0xA60C); (0xA66F, 0xA672); (0xA674, 0xA67D); (0xA67F, 0xA67F);
    (0xA69C, 0xA69F); (0xA6F0, 0xA6F1); (0xA700, 0xA721); (0xA770, 0xA770); (0xA788, 0xA78A);
    (0xA7F2, 0xA7F4); (0xA7F8, 0xA7F9); (0xA802, 0xA802); (0xA806, 0xA806); (0xA80B, 0xA80B);
    (0xA825, 0xA826); (0xA82C, 0xA82C); (0xA8C4, 0xA8C5); (0xA8E0, 0xA8F1); (0xA8FF, 0xA8FF);
    (0xA926, 0xA92D); (0xA947, 0xA951); (0xA980, 0xA982); (0xA9B3, 0xA9B3); (0xA9B6, 0xA9B9);
    (0xA9BC, 0xA9BD); (0xA9CF, 0xA9CF); (0xA9E5, 0xA9E6); (0xAA29, 0xAA2E); (0xAA31, 0xAA32);
    (0xAA35, 0xAA36); (0xAA43, 0xAA43); (0xAA4C, 0xAA4C); (0xAA70, 0xAA70); (0xAA7C, 0xAA7C);
    (0xAAB0, 0xAAB0); (0xAAB2, 0xAAB4); (0xAAB7, 0xAAB8); (0xAABE, 0xAABF); (0xAAC1, 0xAAC1);
    (0xAADD, 0xAADD); (0xAAEC, 0xAAED); (0xAAF3, 0xAAF4); (0xAAF6, 0xAAF6); (0xAB5B, 0xAB5F);
    (0xAB69, 0xAB6B); (0xABE5, 0xABE5); (0xABE8, 0xABE8); (0xABED, 0xABED); (0xFB1E, 0xFB1E);
    (0xFBB2, 0xFBC2); (0xFE00, 0xFE0F); (0xFE13, 0xFE13); (0xFE20, 0xFE2F); (0xFE52, 0xFE52);
    (0xFE55, 0xFE55); (0xFEFF, 0xFEFF); (0xFF07, 0xFF07); (0xFF0E, 0xFF0E); (0xFF1A, 0xFF1A);
    (0xFF3E, 0xFF3E); (0xFF40, 0xFF40); (0xFF70, 0xFF70); (0xFF9E, 0xFF9F); (0xFFE3, 0xFFE3);
    (0xFFF9, 0xFFFB); (0x101FD, 0x101FD); (0x102E0, 0x102E0); (0x10376, 0x1037A);
    (0x10780, 0x10785); (0x10787, 0x107B0); (0x107B2, 0x107BA); (0x10A01, 0x10A03);
    (0x10A05, 0x10A06); (0x10A0C, 0x10A0F); (0x10A38, 0x10A3A); (0x10A3F, 0x10A3F);
    (0x10AE5, 0x10AE6); (0x10D24, 0x10D27); (0x10EAB, 0x10EAC); (0x10F46, 0x10F50);
    (0x10F82, 0x10F85); (0x11001, 0x11001); (0x11038, 0x11046); (0x11070, 0x11070);
    (0x11073, 0x11074); (0x1107F, 0x11081); (0x110B3, 0x110B6); (0x110B9, 0x110BA);
    (0x110BD, 0x110BD); (0x110C2, 0x110C2); (0x110CD, 0x110CD); (0x11100, 0x11102);
    (0x11127, 0x1112B); (0x1112D, 0x11134); (0x11173, 0x11173); (0x11180, 0x11181);
    (0x111B6, 0x111BE); (0x111C9, 0x111CC); (0x111CF, 0x111CF); (0x1122F, 0x11231);
    (0x11234, 0x11234); (0x11236, 0x11237); (0x1123E, 0x1123E); (0x112DF, 0x112DF);
    (0x112E3, 0x112EA); (0x11300, 0x11301); (0x1133B, 0x1133C); (0x11340, 0x11340);
    (0x11366, 0x1136C); (0x11370, 0x11374); (0x11438, 0x1143F); (0x11442, 0x11444);
    (0x11446, 0x11446); (0x1145E, 0x1145E); (0x114B3, 0x114B8); (0x114BA, 0x114BA);
    (0x114BF, 0x114C0); (0x114C2, 0x114C3); (0x115B2, 0x115B5); (0x115BC, 0x115BD);
    (0x115BF, 0x115C0); (0x115DC, 0x115DD); (0x11633, 0x1163A); (0x1163D, 0x1163D);
    (0x1163F, 0x11640); (0x116AB, 0x116AB); (0x116AD, 0x116AD); (0x116B0, 0x116B5);
    (0x116B7, 0x116B7); (0x1171D, 0x1171F); (0x11722, 0x11725); (0x11727, 0x1172B);
    (0x1182F, 0x11837); (0x11839, 0x1183A); (0x1193B, 0x1193C); (0x1193E, 0x1193E);
    (0x11943, 0x11943); (0x119D4, 0x119D7); (0x119DA, 0x119DB); (0x119E0, 0x119E0);
    (0x11A01, 0x11A0A); (0x11A33, 0x11A38); (0x11A3B, 0x11A3E); (0x11A47, 0x11A47);
    (0x11A51, 0x11A56); (0x11A59, 0x11A5B); (0x11A8A, 0x11A96); (0x11A98, 0x11A99);
    (0x11C30, 0x11C36); (0x11C38, 0x11C3D); (0x11C3F, 0x11C3F); (0x11C92, 0x11CA7);
    (0x11CAA, 0x11CB0); (0x11CB2, 0x11CB3); (0x11CB5, 0x11CB6); (0x11D31, 0x11D36);
    (0x11D3A, 0x11D3A); (0x11D3C, 0x11D3D); (0x11D3F, 0x11D45); (0x11D47, 0x11D47);
    (0x11D90, 0x11D91); (0x11D95, 0x11D95); (0x11D97, 0x11D97); (0x11EF3, 0x11EF4);
    (0x13430, 0x13438); (0x16AF0, 0x16AF4); (0x16B30, 0x16B36); (0x16B40, 0x16B43);
    (0x16F4F, 0x16F4F); (0x16F8F, 0x16F9F); (0x16FE0, 0x16FE1); (0x16FE3, 0x16FE4);
    (0x1AFF0, 0x1AFF3); (0x1AFF5, 0x1AFFB); (0x1AFFD, 0x1AFFE); (0x1BC9D, 0x1BC9E);
    (0x1BCA0, 0x1BCA3); (0x1CF00, 0x1CF2D); (0x1CF30, 0x1CF46); (0x1D167, 0x1D169);
    (0x1D173, 0x1D182); (0x1D185, 0x1D18B); (0x1D1AA, 0x1D1AD); (0x1D242, 0x1D244);
    (0x1DA00, 0x1DA36); (0x1DA3B, 0x1DA6C); (0x1DA75, 0x1DA75); (0x1DA84, 0x1DA84);
    (0x1DA9B, 0x1DA9F); (0x1DAA1, 0x1DAAF); (0x1E000, 0x1E006); (0x1E008, 0x1E018);
    (0x1E01B, 0x1E021); (0x1E023, 0x1E024); (0x1E026, 0x1E02A); (0x1E130, 0x1E13D);
    (0x1E2AE, 0x1E2AE); (0x1E2EC, 0x1E2EF); (0x1E8D0, 0x1E8D6); (0x1E944, 0x1E94B);
    (0x1F3FB, 0x1F3FF); (0xE0001, 0xE0001); (0xE0020, 0xE007F); (0xE0100, 0xE01EF) ].

(** Code points for which [str.isalnum] holds: alphabetic, decimal, digit
    or numeric ([Py_UNICODE_ISALNUM]). *)
Definition alnum_ranges : list (N * N) :=
  [ (0x30, 0x39); (0x41, 0x5A); (0x61, 0x7A); (0xAA, 0xAA); (0xB2, 0xB3); (0xB5, 0xB5);
    (0xB9, 0xBA); (0xBC, 0xBE); (0xC0, 0xD6); (0xD8, 0xF6); (0xF8, 0x2C1); (0x2C6, 0x2D1);
    (0x2E0, 0x2E4); (0x2EC, 0x2EC); (0x2EE, 0x2EE); (0x370, 0x374); (0x376, 0x377);
    (0x37A, 0x37D); (0x37F, 0x37F); (0x386, 0x386); (0x388, 0x38A); (0x38C, 0x38C);
    (0x38E, 0x3A1); (0x3A3, 0x3F5); (0x3F7, 0x481); (0x48A, 0x52F); (0x531, 0x556);
    (0x559, 0x559); (0x560, 0x588); (0x5D0, 0x5EA); (0x5EF, 0x5F2); (0x620, 0x64A);
    (0x660, 0x669); (0x66E, 0x66F); (0x671, 0x6D3); (0x6D5, 0x6D5); (0x6E5, 0x6E6);
    (0x6EE, 0x6FC); (0x6FF, 0x6FF); (0x710, 0x710); (0x712, 0x72F); (0x74D, 0x7A5);
    (0x7B1, 0x7B1); (0x7C0, 0x7EA); (0x7F4, 0x7F5); (0x7FA, 0x7FA); (0x800, 0x815);
    (0x81A, 0x81A); (0x824, 0x824); (0x828, 0x828); (0x840, 0x858); (0x860, 0x86A);
    (0x870, 0x887); (0x889, 0x88E); (0x8A0, 0x8C9); (0x904, 0x939); (0x93D, 0x93D);
    (0x950, 0x950); (0x958, 0x961); (0x966, 0x96F); (0x971, 0x980); (0x985, 0x98C);
    (0x98F, 0x990); (0x993, 0x9A8); (0x9AA, 0x9B0); (0x9B2, 0x9B2); (0x9B6, 0x9B9);
    (0x9BD, 0x9BD); (0x9CE, 0x9CE); (0x9DC, 0x9DD); (0x9DF, 0x9E1); (0x9E6, 0x9F1);
    (0x9F4, 0x9F9); (0x9FC, 0x9FC); (0xA05, 0xA0A); (0xA0F, 0xA10); (0xA13, 0xA28);
    (0xA2A, 0xA30); (0xA32, 0xA33); (0xA35, 0xA36); (0xA38, 0xA39); (0xA59, 0xA5C);
    (0xA5E, 0xA5E); (0xA66, 0xA6F); (0xA72, 0xA74); (0xA85, 0xA8D); (0xA8F, 0xA91);
    (0xA93, 0xAA8); (0xAAA, 0xAB0); (0xAB2, 0xAB3); (0xAB5, 0xAB9); (0xABD, 0xABD);
    (0xAD0, 0xAD0); (0xAE0, 0xAE1); (0xAE6, 0xAEF); (0xAF9, 0xAF9); (0xB05, 0xB0C);
    (0xB0F, 0xB10); (0xB13, 0xB28); (0xB2A, 0xB30); (0xB32, 0xB33); (0xB35, 0xB39);
    (0xB3D, 0xB3D); (0xB5C, 0xB5D); (0xB5F, 0xB61); (0xB66, 0xB6F); (0xB71, 0xB77);
    (0xB83, 0xB83); (0xB85, 0xB8A); (0xB8E, 0xB90); (0xB92, 0xB95); (0xB99, 0xB9A);
    (0xB9C, 0xB9C); (0xB9E, 0xB9F); (0xBA3, 0xBA4); (0xBA8, 0xBAA); (0xBAE, 0xBB9);
    (0xBD0, 0xBD0); (0xBE6, 0xBF2); (0xC05, 0xC0C); (0xC0E, 0xC10); (0xC12, 0xC28);
    (0xC2A, 0xC39); (0xC3D, 0xC3D); (0xC58, 0xC5A); (0xC5D, 0xC5D); (0xC60, 0xC61);
    (0xC66, 0xC6F); (0xC78, 0xC7E); (0xC80, 0xC80); (0xC85, 0xC8C); (0xC8E, 0xC90);
    (0xC92, 0xCA8); (0xCAA, 0xCB3); (0xCB5, 0xCB9); (0xCBD, 0xCBD); (0xCDD, 0xCDE);
    (0xCE0, 0xCE1); (0xCE6, 0xCEF); (0xCF1, 0xCF2); (0xD04, 0xD0C); (0xD0E, 0xD10);
    (0xD12, 0xD3A); (0xD3D, 0xD3D); (0xD4E, 0xD4E); (0xD54, 0xD56); (0xD58, 0xD61);
    (0xD66, 0xD78); (0xD7A, 0xD7F); (0xD85, 0xD96); (0xD9A, 0xDB1); (0xDB3, 0xDBB);
    (0xDBD, 0xDBD); (0xDC0, 0xDC6); (0xDE6, 0xDEF); (0xE01, 0xE30); (0xE32, 0xE33);
    (0xE40, 0xE46); (0xE50, 0xE59); (0xE81, 0xE82); (0xE84, 0xE84); (0xE86, 0xE8A);
    (0xE8C, 0xEA3); (0xEA5, 0xEA5); (0xEA7, 0xEB0); (0xEB2, 0xEB3); (0xEBD, 0xEBD);
    (0xEC0, 0xEC4); (0xEC6, 0xEC6); (0xED0, 0xED9); (0xEDC, 0xEDF); (0xF00, 0xF00);
    (0xF20, 0xF33); (0xF40, 0xF47); (0xF49, 0xF6C); (0xF88, 0xF8C); (0x1000, 0x102A);
    (0x103F, 0x1049); (0x1050, 0x1055); (0x105A, 0x105D); (0x1061, 0x1061); (0x1065, 0x1066);
    (0x106E, 0x1070); (0x1075, 0x1081); (0x108E, 0x108E); (0x1090, 0x1099); (0x10A0, 0x10C5);
    (0x10C7, 0x10C7); (0x10CD, 0x10CD); (0x10D0, 0x10FA); (0x10FC, 0x1248); (0x124A, 0x124D);
    (0x1250, 0x1256); (0x1258, 0x1258); (0x125A, 0x125D); (0x1260, 0x1288); (0x128A, 0x128D);
    (0x1290, 0x12B0); (0x12B2, 0x12B5); (0x12B8, 0x12BE); (0x12C0, 0x12C0); (0x12C2, 0x12C5);
    (0x12C8, 0x12D6); (0x12D8, 0x1310); (0x1312, 0x1315); (0x1318, 0x135A); (0x1369, 0x137C);
    (0x1380, 0x138F); (0x13A0, 0x13F5); (0x13F8, 0x13FD); (0x1401, 0x166C); (0x166F, 0x167F);
    (0x1681, 0x169A); (0x16A0, 0x16EA); (0x16EE, 0x16F8); (0x1700, 0x1711); (0x171F, 0x1731);
    (0x1740, 0x1751); (0x1760, 0x176C); (0x176E, 0x1770); (0x1780, 0x17B3); (0x17D7, 0x17D7);
    (0x17DC, 0x17DC); (0x17E0, 0x17E9); (0x17F0, 0x17F9); (0x1810, 0x1819); (0x1820, 0x1878);
    (0x1880, 0x1884); (0x1887, 0x18A8); (0x18AA, 0x18AA); (0x18B0, 0x18F5); (0x1900, 0x191E);
    (0x1946, 0x196D); (0x1970, 0x1974); (0x1980, 0x19AB); (0x19B0, 0x19C9); (0x19D0, 0x19DA);
    (0x1A00, 0x1A16); (0x1A20, 0x1A54); (0x1A80, 0x1A89); (0x1A90, 0x1A99); (0x1AA7, 0x1AA7);
    (0x1B05, 0x1B33); (0x1B45, 0x1B4C); (0x1B50, 0x1B59); (0x1B83, 0x1BA0); (0x1BAE, 0x1BE5);
    (0x1C00, 0x1C23); (0x1C40, 0x1C49); (0x1C4D, 0x1C7D); (0x1C80, 0x1C88); (0x1C90, 0x1CBA);
    (0x1CBD, 0x1CBF); (0x1CE9, 0x1CEC); (0x1CEE, 0x1CF3); (0x1CF5, 0x1CF6); (0x1CFA, 0x1CFA);
    (0x1D00, 0x1DBF); (0x1E00, 0x1F15); (0x1F18, 0x1F1D); (0x1F20, 0x1F45); (0x1F48, 0x1F4D);
    (0x1F50, 0x1F57); (0x1F59, 0x1F59); (0x1F5B, 0x1F5B); (0x1F5D, 0x1F5D); (0x1F5F, 0x1F7D);
    (0x1F80, 0x1FB4); (0x1FB6, 0x1FBC); (0x1FBE, 0x1FBE); (0x1FC2, 0x1FC4); (0x1FC6, 0x1FCC);
    (0x1FD0, 0x1FD3); (0x1FD6, 0x1FDB); (0x1FE0, 0x1FEC); (0x1FF2, 0x1FF4); (0x1FF6, 0x1FFC);
    (0x2070, 0x2071); (0x2074, 0x2079); (0x207F, 0x2089); (0x2090, 0x209C); (0x2102, 0x2102);
    (0x2107, 0x2107); (0x210A, 0x2113); (0x2115, 0x2115); (0x2119, 0x211D); (0x2124, 0x2124);
    (0x2126, 0x2126); (0x2128, 0x2128); (0x212A, 0x212D); (0x212F, 0x2139); (0x213C, 0x213F);
    (0x2145, 0x2149); (0x214E, 0x214E); (0x2150, 0x2189); (0x2460, 0x249B); (0x24EA, 0x24FF);
    (0x2776, 0x2793); (0x2C00, 0x2CE4); (0x2CEB, 0x2CEE); (0x2CF2, 0x2CF3); (0x2CFD, 0x2CFD);
    (0x2D00, 0x2D25); (0x2D27, 0x2D27); (0x2D2D, 0x2D2D); (0x2D30, 0x2D67); (0x2D6F, 0x2D6F);
    (0x2D80, 0x2D96); (0x2DA0, 0x2DA6); (0x2DA8, 0x2DAE); (0x2DB0, 0x2DB6); (0x2DB8, 0x2DBE);
    (0x2DC0, 0x2DC6); (0x2DC8, 0x2DCE); (0x2DD0, 0x2DD6); (0x2DD8, 0x2DDE); (0x2E2F, 0x2E2F);
    (0x3005, 0x3007); (0x3021, 0x3029); (0x3031, 0x3035); (0x3038, 0x303C); (0x3041, 0x3096);
    (0x309D, 0x309F); (0x30A1, 0x30FA); (0x30FC, 0x30FF); (0x3105, 0x312F); (0x3131, 0x318E);
    (0x3192, 0x3195); (0x31A0, 0x31BF); (0x31F0, 0x31FF); (0x3220, 0x3229); (0x3248, 0x324F);
    (0x3251, 0x325F); (0x3280, 0x3289); (0x32B1, 0x32BF); (0x3400, 0x4DBF); (0x4E00, 0xA48C);
    (0xA4D0, 0xA4FD); (0xA500, 0xA60C); (0xA610, 0xA62B); (0xA640, 0xA66E); (0xA67F, 0xA69D);
    (0xA6A0, 0xA6EF); (0xA717, 0xA71F); (0xA722, 0xA788); (0xA78B, 0xA7CA); (0xA7D0, 0xA7D1);
    (0xA7D3, 0xA7D3); (0xA7D5, 0xA7D9); (0xA7F2, 0xA801); (0xA803, 0xA805); (0xA807, 0xA80A);
    (0xA80C, 0xA822); (0xA830, 0xA835); (0xA840, 0xA873); (0xA882, 0xA8B3); (0xA8D0, 0xA8D9);
    (0xA8F2, 0xA8F7); (0xA8FB, 0xA8FB); (0xA8FD, 0xA8FE); (0xA900, 0xA925); (0xA930, 0xA946);
    (0xA960, 0xA97C); (0xA984, 0xA9B2); (0xA9CF, 0xA9D9); (0xA9E0, 0xA9E4); (0xA9E6, 0xA9FE);
    (0xAA00, 0xAA28); (0xAA40, 0xAA42); (0xAA44, 0xAA4B); (0xAA50, 0xAA59); (0xAA60, 0xAA76);
    (0xAA7A, 0xAA7A); (0xAA7E, 0xAAAF); (0xAAB1, 0xAAB1); (0xAAB5, 0xAAB6); (0xAAB9, 0xAABD);
    (0xAAC0, 0xAAC0); (0xAAC2, 0xAAC2); (0xAADB, 0xAADD); (0xAAE0, 0xAAEA); (0xAAF2, 0xAAF4);
    (0xAB01, 0xAB06); (0xAB09, 0xAB0E); (0xAB11, 0xAB16); (0xAB20, 0xAB26); (0xAB28, 0xAB2E);
    (0xAB30, 0xAB5A); (0xAB5C, 0xAB69); (0xAB70, 0xABE2); (0xABF0, 0xABF9); (0xAC00, 0xD7A3);
    (0xD7B0, 0xD7C6); (0xD7CB, 0xD7FB); (0xF900, 0xFA6D); (0xFA70, 0xFAD9); (0xFB00, 0xFB06);
    (0xFB13, 0xFB17); (0xFB1D, 0xFB1D); (0xFB1F, 0xFB28); (0xFB2A, 0xFB36); (0xFB38, 0xFB3C);
    (0xFB3E, 0xFB3E); (0xFB40, 0xFB41); (0xFB43, 0xFB44); (0xFB46, 0xFBB1); (0xFBD3, 0xFD3D);
    (0xFD50, 0xFD8F); (0xFD92, 0xFDC7); (0xFDF0, 0xFDFB); (0xFE70, 0xFE74); (0xFE76, 0xFEFC);
    (0xFF10, 0xFF19); (0xFF21, 0xFF3A); (0xFF41, 0xFF5A); (0xFF66, 0xFFBE); (0xFFC2, 0xFFC7);
    (0xFFCA, 0xFFCF); (0xFFD2, 0xFFD7); (0xFFDA, 0xFFDC); (0x10000, 0x1000B);
    (0x1000D, 0x10026); (0x10028, 0x1003A); (0x1003C, 0x1003D); (0x1003F, 0x1004D);
    (0x10050, 0x1005D); (0x10080, 0x100FA); (0x10107, 0x10133); (0x10140, 0x10178);
    (0x1018A, 0x1018B); (0x10280, 0x1029C); (0x102A0, 0x102D0); (0x102E1, 0x102FB);
    (0x10300, 0x10323); (0x1032D, 0x1034A); (0x10350, 0x10375); (0x10380, 0x1039D);
    (0x103A0, 0x103C3); (0x103C8, 0x103CF); (0x103D1, 0x103D5); (0x10400, 0x1049D);
    (0x104A0, 0x104A9); (0x104B0, 0x104D3); (0x104D8, 0x104FB); (0x10500, 0x10527);
    (0x10530, 0x10563); (0x10570, 0x1057A); (0x1057C, 0x1058A); (0x1058C, 0x10592);
    (0x10594, 0x10595); (0x10597, 0x105A1); (0x105A3, 0x105B1); (0x105B3, 0x105B9);
    (0x105BB, 0x105BC); (0x10600, 0x10736); (0x10740, 0x10755); (0x10760, 0x10767);
    (0x10780, 0x10785); (0x10787, 0x107B0); (0x107B2, 0x107BA); (0x10800, 0x10805);
    (0x10808, 0x10808); (0x1080A, 0x10835); (0x10837, 0x10838); (0x1083C, 0x1083C);
    (0x1083F, 0x10855); (0x10858, 0x10876); (0x10879, 0x1089E); (0x108A7, 0x108AF);
    (0x108E0, 0x108F2); (0x108F4, 0x108F5); (0x108FB, 0x1091B); (0x10920, 0x10939);
    (0x10980, 0x109B7); (0x109BC, 0x109CF); (0x109D2, 0x10A00); (0x10A10, 0x10A13);
    (0x10A15, 0x10A17); (0x10A19, 0x10A35); (0x10A40, 0x10A48); (0x10A60, 0x10A7E);
    (0x10A80, 0x10A9F); (0x10AC0, 0x10AC7); (0x10AC9, 0x10AE4); (0x10AEB, 0x10AEF);
    (0x10B00, 0x10B35); (0x10B40, 0x10B55); (0x10B58, 0x10B72); (0x10B78, 0x10B91);
    (0x10BA9, 0x10BAF); (0x10C00, 0x10C48); (0x10C80, 0x10CB2); (0x10CC0, 0x10CF2);
    (0x10CFA, 0x10D23); (0x10D30, 0x10D39); (0x10E60, 0x10E7E); (0x10E80, 0x10EA9);
    (0x10EB0, 0x10EB1); (0x10F00, 0x10F27); (0x10F30, 0x10F45); (0x10F51, 0x10F54);
    (0x10F70, 0x10F81); (0x10FB0, 0x10FCB); (0x10FE0, 0x10FF6); (0x11003, 0x11037);
    (0x11052, 0x1106F); (0x11071, 0x11072); (0x11075, 0x11075); (0x11083, 0x110AF);
    (0x110D0, 0x110E8); (0x110F0, 0x110F9); (0x11103, 0x11126); (0x11136, 0x1113F);
    (0x11144, 0x11144); (0x11147, 0x11147); (0x11150, 0x11172); (0x11176, 0x11176);
    (0x11183, 0x111B2); (0x111C1, 0x111C4); (0x111D0, 0x111DA); (0x111DC, 0x111DC);
    (0x111E1, 0x111F4); (0x11200, 0x11211); (0x11213, 0x1122B); (0x11280, 0x11286);
    (0x11288, 0x11288); (0x1128A, 0x1128D); (0x1128F, 0x1129D); (0x1129F, 0x112A8);
    (0x112B0, 0x112DE); (0x112F0, 0x112F9); (0x11305, 0x1130C); (0x1130F, 0x11310);
    (0x11313, 0x11328); (0x1132A, 0x11330); (0x11332, 0x11333); (0x11335, 0x11339);
    (0x1133D, 0x1133D); (0x11350, 0x11350); (0x1135D, 0x11361); (0x11400, 0x11434);
    (0x11447, 0x1144A); (0x11450, 0x11459); (0x1145F, 0x11461); (0x11480, 0x114AF);
    (0x114C4, 0x114C5); (0x114C7, 0x114C7); (0x114D0, 0x114D9); (0x11580, 0x115AE);
    (0x115D8, 0x115DB); (0x11600, 0x1162F); (0x11644, 0x11644); (0x11650, 0x11659);
    (0x11680, 0x116AA); (0x116B8, 0x116B8); (0x116C0, 0x116C9); (0x11700, 0x1171A);
    (0x11730, 0x1173B); (0x11740, 0x11746); (0x11800, 0x1182B); (0x118A0, 0x118F2);
    (0x118FF, 0x11906); (0x11909, 0x11909); (0x1190C, 0x11913); (0x11915, 0x11916);
    (0x11918, 0x1192F); (0x1193F, 0x1193F); (0x11941, 0x11941); (0x11950, 0x11959);
    (0x119A0, 0x119A7); (0x119AA, 0x119D0); (0x119E1, 0x119E1); (0x119E3, 0x119E3);
    (0x11A00, 0x11A00); (0x11A0B, 0x11A32); (0x11A3A, 0x11A3A); (0x11A50, 0x11A50);
    (0x11A5C, 0x11A89); (0x11A9D, 0x11A9D); (0x11AB0, 0x11AF8); (0x11C00, 0x11C08);
    (0x11C0A, 0x11C2E); (0x11C40, 0x11C40); (0x11C50, 0x11C6C); (0x11C72, 0x11C8F);
    (0x11D00, 0x11D06); (0x11D08, 0x11D09); (0x11D0B, 0x11D30); (0x11D46, 0x11D46);
    (0x11D50, 0x11D59); (0x11D60, 0x11D65); (0x11D67, 0x11D68); (0x11D6A, 0x11D89);
    (0x11D98, 0x11D98); (0x11DA0, 0x11DA9); (0x11EE0, 0x11EF2); (0x11FB0, 0x11FB0);
    (0x11FC0, 0x11FD4); (0x12000, 0x12399); (0x12400, 0x1246E); (0x12480, 0x12543);
    (0x12F90, 0x12FF0); (0x13000, 0x1342E); (0x14400, 0x14646); (0x16800, 0x16A38);
    (0x16A40, 0x16A5E); (0x16A60, 0x16A69); (0x16A70, 0x16ABE); (0x16AC0, 0x16AC9);
    (0x16AD0, 0x16AED); (0x16B00, 0x16B2F); (0x16B40, 0x16B43); (0x16B50, 0x16B59);
    (0x16B5B, 0x16B61); (0x16B63, 0x16B77); (0x16B7D, 0x16B8F); (0x16E40, 0x16E96);
    (0x16F00, 0x16F4A); (0x16F50, 0x16F50); (0x16F93, 0x16F9F); (0x16FE0, 0x16FE1);
    (0x16FE3, 0x16FE3); (0x17000, 0x187F7); (0x18800, 0x18CD5); (0x18D00, 0x18D08);
    (0x1AFF0, 0x1AFF3); (0x1AFF5, 0x1AFFB); (0x1AFFD, 0x1AFFE); (0x1B000, 0x1B122);
    (0x1B150, 0x1B152); (0x1B164, 0x1B167); (0x1B170, 0x1B2FB); (0x1BC00, 0x1BC6A);
    (0x1BC70, 0x1BC7C); (0x1BC80, 0x1BC88); (0x1BC90, 0x1BC99); (0x1D2E0, 0x1D2F3);
    (0x1D360, 0x1D378); (0x1D400, 0x1D454); (0x1D456, 0x1D49C); (0x1D49E, 0x1D49F);
    (0x1D4A2, 0x1D4A2); (0x1D4A5, 0x1D4A6); (0x1D4A9, 0x1D4AC); (0x1D4AE, 0x1D4B9);
    (0x1D4BB, 0x1D4BB); (0x1D4BD, 0x1D4C3); (0x1D4C5, 0x1D505); (0x1D507, 0x1D50A);
    (0x1D50D, 0x1D514); (0x1D516, 0x1D51C); (0x1D51E, 0x1D539); (0x1D53B, 0x1D53E);
    (0x1D540, 0x1D544); (0x1D546, 0x1D546); (0x1D54A, 0x1D550); (0x1D552, 0x1D6A5);
    (0x1D6A8, 0x1D6C0); (0x1D6C2, 0x1D6DA); (0x1D6DC, 0x1D6FA); (0x1D6FC, 0x1D714);
    (0x1D716, 0x1D734); (0x1D736, 0x1D74E); (0x1D750, 0x1D76E); (0x1D770, 0x1D788);
    (0x1D78A, 0x1D7A8); (0x1D7AA, 0x1D7C2); (0x1D7C4, 0x1D7CB); (0x1D7CE, 0x1D7FF);
    (0x1DF00, 0x1DF1E); (0x1E100, 0x1E12C); (0x1E137, 0x1E13D); (0x1E140, 0x1E149);
    (0x1E14E, 0x1E14E); (0x1E290, 0x1E2AD); (0x1E2C0, 0x1E2EB); (0x1E2F0, 0x1E2F9);
    (0x1E7E0, 0x1E7E6); (0x1E7E8, 0x1E7EB); (0x1E7ED, 0x1E7EE); (0x1E7F0, 0x1E7FE);
    (0x1E800, 0x1E8C4); (0x1E8C7, 0x1E8CF); (0x1E900, 0x1E943); (0x1E94B, 0x1E94B);
    (0x1E950, 0x1E959); (0x1EC71, 0x1ECAB); (0x1ECAD, 0x1ECAF); (0x1ECB1, 0x1ECB4);
    (0x1ED01, 0x1ED2D); (0x1ED2F, 0x1ED3D); (0x1EE00, 0x1EE03); (0x1EE05, 0x1EE1F);
    (0x1EE21, 0x1EE22); (0x1EE24, 0x1EE24); (0x1EE27, 0x1EE27); (0x1EE29, 0x1EE32);
    (0x1EE34, 0x1EE37); (0x1EE39, 0x1EE39); (0x1EE3B, 0x1EE3B); (0x1EE42, 0x1EE42);
    (0x1EE47, 0x1EE47); (0x1EE49, 0x1EE49); (0x1EE4B, 0x1EE4B); (0x1EE4D, 0x1EE4F);
    (0x1EE51, 0x1EE52); (0x1EE54, 0x1EE54); (0x1EE57, 0x1EE57); (0x1EE59, 0x1EE59);
    (0x1EE5B, 0x1EE5B); (0x1EE5D, 0x1EE5D); (0x1EE5F, 0x1EE5F); (0x1EE61, 0x1EE62);
    (0x1EE64, 0x1EE64); (0x1EE67, 0x1EE6A); (0x1EE6C, 0x1EE72); (0x1EE74, 0x1EE77);
    (0x1EE79, 0x1EE7C); (0x1EE7E, 0x1EE7E); (0x1EE80, 0x1EE89); (0x1EE8B, 0x1EE9B);
    (0x1EEA1, 0x1EEA3); (0x1EEA5, 0x1EEA9); (0x1EEAB, 0x1EEBB); (0x1F100, 0x1F10C);
    (0x1FBF0, 0x1FBF9); (0x20000, 0x2A6DF); (0x2A700, 0x2B738); (0x2B740, 0x2B81D);
    (0x2B820, 0x2CEA1); (0x2CEB0, 0x2EBE0); (0x2F800, 0x2FA1D); (0x30000, 0x3134A) ].

(** Simple lowercase mappings, as runs [(first, last, step, image of first)]:
    the code point [first + k * step <= last] maps to [image + k * step]. *)
Definition lower_runs : list (N * N * N * N) :=
  [ (0x41, 0x5A, 1, 0x61); (0xC0, 0xD6, 1, 0xE0); (0xD8, 0xDE, 1, 0xF8);
    (0x100, 0x12E, 2, 0x101); (0x132, 0x136, 2, 0x133); (0x139, 0x147, 2, 0x13A);
    (0x14A, 0x176, 2, 0x14B); (0x178, 0x178, 1, 0xFF); (0x179, 0x17D, 2, 0x17A);
    (0x181, 0x181, 1, 0x253); (0x182, 0x184, 2, 0x183); (0x186, 0x186, 1, 0x254);
    (0x187, 0x187, 1, 0x188); (0x189, 0x18A, 1, 0x256); (0x18B, 0x18B, 1, 0x18C);
    (0x18E, 0x18E, 1, 0x1DD); (0x18F, 0x18F, 1, 0x259); (0x190, 0x190, 1, 0x25B);
    (0x191, 0x191, 1, 0x192); (0x193, 0x193, 1, 0x260); (0x194, 0x194, 1, 0x263);
    (0x196, 0x196, 1, 0x269); (0x197, 0x197, 1, 0x268); (0x198, 0x198, 1, 0x199);
    (0x19C, 0x19C, 1, 0x26F); (0x19D, 0x19D, 1, 0x272); (0x19F, 0x19F, 1, 0x275);
    (0x1A0, 0x1A4, 2, 0x1A1); (0x1A6, 0x1A6, 1, 0x280); (0x1A7, 0x1A7, 1, 0x1A8);
    (0x1A9, 0x1A9, 1, 0x283); (0x1AC, 0x1AC, 1, 0x1AD); (0x1AE, 0x1AE, 1, 0x288);
    (0x1AF, 0x1AF, 1, 0x1B0); (0x1B1, 0x1B2, 1, 0x28A); (0x1B3, 0x1B5, 2, 0x1B4);
    (0x1B7, 0x1B7, 1, 0x292); (0x1B8, 0x1B8, 1, 0x1B9); (0x1BC, 0x1BC, 1, 0x1BD);
    (0x1C4, 0x1C4, 1, 0x1C6); (0x1C5, 0x1C5, 1, 0x1C6); (0x1C7, 0x1C7, 1, 0x1C9);
    (0x1C8, 0x1C8, 1, 0x1C9); (0x1CA, 0x1CA, 1, 0x1CC); (0x1CB, 0x1DB, 2, 0x1CC);
    (0x1DE, 0x1EE, 2, 0x1DF); (0x1F1, 0x1F1, 1, 0x1F3); (0x1F2, 0x1F4, 2, 0x1F3);
    (0x1F6, 0x1F6, 1, 0x195); (0x1F7, 0x1F7, 1, 0x1BF); (0x1F8, 0x21E, 2, 0x1F9);
    (0x220, 0x220, 1, 0x19E); (0x222, 0x232, 2, 0x223); (0x23A, 0x23A, 1, 0x2C65);
    (0x23B, 0x23B, 1, 0x23C); (0x23D, 0x23D, 1, 0x19A); (0x23E, 0x23E, 1, 0x2C66);
    (0x241, 0x241, 1, 0x242); (0x243, 0x243, 1, 0x180); (0x244, 0x244, 1, 0x289);
    (0x245, 0x245, 1, 0x28C); (0x246, 0x24E, 2, 0x247); (0x370, 0x372, 2, 0x371);
    (0x376, 0x376, 1, 0x377); (0x37F, 0x37F, 1, 0x3F3); (0x386, 0x386, 1, 0x3AC);
    (0x388, 0x38A, 1, 0x3AD); (0x38C, 0x38C, 1, 0x3CC); (0x38E, 0x38F, 1, 0x3CD);
    (0x391, 0x3A1, 1, 0x3B1); (0x3A3, 0x3AB, 1, 0x3C3); (0x3CF, 0x3CF, 1, 0x3D7);
    (0x3D8, 0x3EE, 2, 0x3D9); (0x3F4, 0x3F4, 1, 0x3B8); (0x3F7, 0x3F7, 1, 0x3F8);
    (0x3F9, 0x3F9, 1, 0x3F2); (0x3FA, 0x3FA, 1, 0x3FB); (0x3FD, 0x3FF, 1, 0x37B);
    (0x400, 0x40F, 1, 0x450); (0x410, 0x42F, 1, 0x430); (0x460, 0x480, 2, 0x461);
    (0x48A, 0x4BE, 2, 0x48B); (0x4C0, 0x4C0, 1, 0x4CF); (0x4C1, 0x4CD, 2, 0x4C2);
    (0x4D0, 0x52E, 2, 0x4D1); (0x531, 0x556, 1, 0x561); (0x10A0, 0x10C5, 1, 0x2D00);
    (0x10C7, 0x10C7, 1, 0x2D27); (0x10CD, 0x10CD, 1, 0x2D2D); (0x13A0, 0x13EF, 1, 0xAB70);
    (0x13F0, 0x13F5, 1, 0x13F8); (0x1C90, 0x1CBA, 1, 0x10D0); (0x1CBD, 0x1CBF, 1, 0x10FD);
    (0x1E00, 0x1E94, 2, 0x1E01); (0x1E9E, 0x1E9E, 1, 0xDF); (0x1EA0, 0x1EFE, 2, 0x1EA1);
    (0x1F08, 0x1F0F, 1, 0x1F00); (0x1F18, 0x1F1D, 1, 0x1F10); (0x1F28, 0x1F2F, 1, 0x1F20);
    (0x1F38, 0x1F3F, 1, 0x1F30); (0x1F48, 0x1F4D, 1, 0x1F40); (0x1F59, 0x1F5F, 2, 0x1F51);
    (0x1F68, 0x1F6F, 1, 0x1F60); (0x1F88, 0x1F8F, 1, 0x1F80); (0x1F98, 0x1F9F, 1, 0x1F90);
    (0x1FA8, 0x1FAF, 1, 0x1FA0); (0x1FB8, 0x1FB9, 1, 0x1FB0); (0x1FBA, 0x1FBB, 1, 0x1F70);
    (0x1FBC, 0x1FBC, 1, 0x1FB3); (0x1FC8, 0x1FCB, 1, 0x1F72); (0x1FCC, 0x1FCC, 1, 0x1FC3);
    (0x1FD8, 0x1FD9, 1, 0x1FD0); (0x1FDA, 0x1FDB, 1, 0x1F76); (0x1FE8, 0x1FE9, 1, 0x1FE0);
    (0x1FEA, 0x1FEB, 1, 0x1F7A); (0x1FEC, 0x1FEC, 1, 0x1FE5); (0x1FF8, 0x1FF9, 1, 0x1F78);
    (0x1FFA, 0x1FFB, 1, 0x1F7C); (0x1FFC, 0x1FFC, 1, 0x1FF3); (0x2126, 0x2126, 1, 0x3C9);
    (0x212A, 0x212A, 1, 0x6B); (0x212B, 0x212B, 1, 0xE5); (0x2132, 0x2132, 1, 0x214E);
    (0x2160, 0x216F, 1, 0x2170); (0x2183, 0x2183, 1, 0x2184); (0x24B6, 0x24CF, 1, 0x24D0);
    (0x2C00, 0x2C2F, 1, 0x2C30); (0x2C60, 0x2C60, 1, 0x2C61); (0x2C62, 0x2C62, 1, 0x26B);
    (0x2C63, 0x2C63, 1, 0x1D7D); (0x2C64, 0x2C64, 1, 0x27D); (0x2C67, 0x2C6B, 2, 0x2C68);
    (0x2C6D, 0x2C6D, 1, 0x251); (0x2C6E, 0x2C6E, 1, 0x271); (0x2C6F, 0x2C6F, 1, 0x250);
    (0x2C70, 0x2C70, 1, 0x252); (0x2C72, 0x2C72, 1, 0x2C73); (0x2C75, 0x2C75, 1, 0x2C76);
    (0x2C7E, 0x2C7F, 1, 0x23F); (0x2C80, 0x2CE2, 2, 0x2C81); (0x2CEB, 0x2CED, 2, 0x2CEC);
    (0x2CF2, 0x2CF2, 1, 0x2CF3); (0xA640, 0xA66C, 2, 0xA641); (0xA680, 0xA69A, 2, 0xA681);
    (0xA722, 0xA72E, 2, 0xA723); (0xA732, 0xA76E, 2, 0xA733); (0xA779, 0xA77B, 2, 0xA77A);
    (0xA77D, 0xA77D, 1, 0x1D79); (0xA77E, 0xA786, 2, 0xA77F); (0xA78B, 0xA78B, 1, 0xA78C);
    (0xA78D, 0xA78D, 1, 0x265); (0xA790, 0xA792, 2, 0xA791); (0xA796, 0xA7A8, 2, 0xA797);
    (0xA7AA, 0xA7AA, 1, 0x266); (0xA7AB, 0xA7AB, 1, 0x25C); (0xA7AC, 0xA7AC, 1, 0x261);
    (0xA7AD, 0xA7AD, 1, 0x26C); (0xA7AE, 0xA7AE, 1, 0x26A); (0xA7B0, 0xA7B0, 1, 0x29E);
    (0xA7B1, 0xA7B1, 1, 0x287); (0xA7B2, 0xA7B2, 1, 0x29D); (0xA7B3, 0xA7B3, 1, 0xAB53);
    (0xA7B4, 0xA7C2, 2, 0xA7B5); (0xA7C4, 0xA7C4, 1, 0xA794); (0xA7C5, 0xA7C5, 1, 0x282);
    (0xA7C6, 0xA7C6, 1, 0x1D8E); (0xA7C7, 0xA7C9, 2, 0xA7C8); (0xA7D0, 0xA7D0, 1, 0xA7D1);
    (0xA7D6, 0xA7D8, 2, 0xA7D7); (0xA7F5, 0xA7F5, 1, 0xA7F6); (0xFF21, 0xFF3A, 1, 0xFF41);
    (0x10400, 0x10427, 1, 0x10428); (0x104B0, 0x104D3, 1, 0x104D8);
    (0x10570, 0x10594, 2, 0x10597); (0x10571, 0x10579, 2, 0x10598);
    (0x1057D, 0x10589, 2, 0x105A4); (0x1058D, 0x10591, 2, 0x105B4);
    (0x10595, 0x10595, 1, 0x105BC); (0x10C80, 0x10CB2, 1, 0x10CC0);
    (0x118A0, 0x118BF, 1, 0x118C0); (0x16E40, 0x16E5F, 1, 0x16E60);
    (0x1E900, 0x1E921, 1, 0x1E922) ].

Definition is_cased (c : N) : bool := in_ranges cased_ranges c.
Definition is_case_ignorable (c : N) : bool := in_ranges case_ignorable_ranges c.
Definition is_alnum (c : N) : bool := in_ranges alnum_ranges c.

(** [SRE_UNI_IS_WORD]: the characters [\w] matches in a [str] pattern. *)
Definition is_word (c : N) : bool := is_alnum c || (c =? 0x5F).

Fixpoint expand_run (n : nat) (c step img : N) : list (N * list N) :=
  match n with
  | O => []
  | S n' => (c, [img]) :: expand_run n' (c + step) step (img + step)
  end.

Definition expand (r : N * N * N * N) : list (N * list N) :=
  let '(first, last, step, img) := r in
  expand_run (S (N.to_nat ((last - first) / step))) first step img.

(** The full lowercase mapping of every code point that has one; the only
    mapping to more than one code point is that of U+0130. *)
Definition lower_table : list (N * list N) :=
  Eval vm_compute in (0x130, [0x69; 0x307]) :: flat_map expand lower_runs.

Fixpoint assoc (c : N) (t : list (N * list N)) : option (list N) :=
  match t with
  | [] => None
  | (k, v) :: t' => if k =? c then Some v else assoc c t'
  end.

(** [_PyUnicode_ToLowerFull] *)
Definition to_lower_full (c : N) : list N :=
  match assoc c lower_table with
  | Some l => l
  | None => [c]
  end.

Definition SIGMA : N := 0x3A3.

(** [handle_capital_sigma]: U+03A3 lowers to the final sigma U+03C2 when it
    is preceded by a cased letter and not followed by one, case-ignorable
    characters being skipped on both sides; [before] holds the characters
    that precede it, nearest first. *)
Fixpoint skip_ignorable (s : str) : str :=
  match s with
  | [] => []
  | c :: s' => if is_case_ignorable c then skip_ignorable s' else s
  end.

Definition handle_capital_sigma (before after : str) : N :=
  let final_sigma :=
    match skip_ignorable before with
    | [] => false
    | c :: _ => is_cased c
    end &&
    match skip_ignorable after with
    | [] => true
    | c :: _ => negb (is_cased c)
    end in
  if final_sigma then 0x3C2 else 0x3C3.

(** [lower_ucs4] *)
Definition lower_ucs4 (before : str) (c : N) (after : str) : list N :=
  if c =? SIGMA then [handle_capital_sigma before after] else to_lower_full c.

(** [do_lower]: the characters are lowered left to right, each in the
    context of the original string. *)
Fixpoint do_lower (before s : str) : str :=
  match s with
  | [] => []
  | c :: after => lower_ucs4 before c after ++ do_lower (c :: before) after
  end.

End Unicode.

(** [s.lower()] *)
Definition lower (s : str) : str := Unicode.do_lower [] s.

(** ** Regular expressions ([re.search] on [str] patterns) *)

Module Re.

(** The constructs the two patterns of the program use.  A pattern is
    matched against positions [0 .. len(s)] of the subject string. *)
Inductive regex : Type :=
| Eps                         (* the empty pattern *)
| Chr (c : N)                 (* a literal character *)
| Dot                         (* [.]: any character except a newline *)
| WordBoundary                (* [\b] *)
| Group (r : regex)           (* [( r )] *)
| Cat (r1 r2 : regex)         (* [r1 r2] *)
| Alt (r1 r2 : regex)         (* [r1 | r2] *)
| Star (r : regex).           (* [r*] *)

(** A literal run of characters. *)
Definition literal (w : str) : regex := fold_right (fun c r => Cat (Chr c) r) Eps w.

Definition NEWLINE : N := 0x0A.

Definition word_at (s : str) (i : nat) : bool :=
  match nth_error s i with
  | Some c => Unicode.is_word c
  | None => false
  end.

(** [SRE_AT_UNI_BOUNDARY]: position [i] is a word boundary when exactly one
    of the characters before and after it is a word character; the start
    and the end of the string count as non-word characters. *)
Definition at_boundary (s : str) (i : nat) : bool :=
  let that := match i with O => false | S p => word_at s p end in
  let this := word_at s i in
  negb (Bool.eqb this that).

(** Iteration of a one-step matcher: the positions reachable from [i] by
    repeating [step]; an iteration that consumes nothing is dropped, so at
    most [len(s)] rounds are needed. *)
Fixpoint star_from (fuel : nat) (step : nat -> list nat) (i : nat) : list nat :=
  i :: match fuel with
       | O => []
       | S fuel' =>
         flat_map (star_from fuel' step) (filter (fun k => Nat.ltb i k) (step i))
       end.

(** [ends r s i]: every position at which a match of [r] that starts at
    position [i] of [s] can end. *)
Fixpoint ends (r : regex) (s : str) (i : nat) : list nat :=
  match r with
  | Eps => [i]
  | Chr c =>
    match nth_error s i with
    | Some c' => if c' =? c then [S i] else []
    | None => []
    end
  | Dot =>
    match nth_error s i with
    | Some c' => if c' =? NEWLINE then [] else [S i]
    | None => []
    end
  | WordBoundary => if at_boundary s i then [i] else []
  | Group r1 => ends r1 s i
  | Cat r1 r2 => flat_map (ends r2 s) (ends r1 s i)
  | Alt r1 r2 => ends r1 s i ++ ends r2 s i
  | Star r1 => star_from (List.length s) (ends r1 s) i
  end.

Definition match_at (r : regex) (s : str) (i : nat) : bool :=
  match ends r s i with
  | [] => false
  | _ :: _ => true
  end.

(** [re.search(pattern, s)] used as a condition: is there a match starting
    at some position of [s]? *)
Definition search (r : regex) (s : str) : bool :=
  existsb (match_at r s) (seq 0 (S (List.length s))).

End Re.

(** ** Dates ([datetime.date] and [strftime]) *)

Module Datetime.

Record date : Type := mkdate { year : N; month : N; day : N }.

Definition MINYEAR : N := 1.
Definition MAXYEAR : N := 9999.

Definition is_leap (y : N) : bool :=
  ((y mod 4 =? 0) && negb (y mod 100 =? 0)) || (y mod 400 =? 0).

Definition days_in_month (y m : N) : N :=
  if m =? 2 then (if is_leap y then 29 else 28)
  else if (m =? 4) || (m =? 6) || (m =? 9) || (m =? 11) then 30
  else 31.

(** The values a [datetime.date] can hold. *)
Definition valid (d : date) : Prop :=
  MINYEAR <= year d <= MAXYEAR /\
  1 <= month d <= 12 /\
  1 <= day d <= days_in_month (year d) (month d).

Definition digit (n : N) : N := 0x30 + n.

Fixpoint digits_of_uint (u : Decimal.uint) : str :=
  match u with
  | Decimal.Nil => []
  | Decimal.D0 u' => digit 0 :: digits_of_uint u'
  | Decimal.D1 u' => digit 1 :: digits_of_uint u'
  | Decimal.D2 u' => digit 2 :: digits_of_uint u'
  | Decimal.D3 u' => digit 3 :: digits_of_uint u'
  | Decimal.D4 u' => digit 4 :: digits_of_uint u'
  | Decimal.D5 u' => digit 5 :: digits_of_uint u'
  | Decimal.D6 u' => digit 6 :: digits_of_uint u'
  | Decimal.D7 u' => digit 7 :: digits_of_uint u'
  | Decimal.D8 u' => digit 8 :: digits_of_uint u'
  | Decimal.D9 u' => digit 9 :: digits_of_uint u'
  end.

(** Decimal numeral of a number, without padding. *)
Definition decimal (n : N) : str := digits_of_uint (N.to_uint n).

(** [%B] in the C locale: the full English month name. *)
Definition month_name (m : N) : str :=
  match m with
  | 1 => U "January" | 2 => U "February" | 3 => U "March"
  | 4 => U "April" | 5 => U "May" | 6 => U "June"
  | 7 => U "July" | 8 => U "August" | 9 => U "September"
  | 10 => U "October" | 11 => U "November" | 12 => U "December"
  | _ => []
  end.

(** [%d]: the day of the month as two digits. *)
Definition two_digits (n : N) : str := [digit (n / 10); digit (n mod 10)].

(** [d.strftime('%B %d, %Y')] in the C locale; [%Y] is the decimal year,
    four digits for every year from 1000 on. *)
Definition strftime_B_d_Y (d : date) : str :=
  month_name (month d) ++ U " " ++ two_digits (day d) ++ U ", " ++ decimal (year d).

End Datetime.

(** ** The store (SQLite table [conversations]) *)

Module Sqlite.

(** The text [CURRENT_TIMESTAMP] evaluates to when a row is written. *)
Definition timestamp := str.

(** [CREATE TABLE conversations (id INTEGER PRIMARY KEY AUTOINCREMENT,
    user_message TEXT NOT NULL, bot_response TEXT NOT NULL,
    timestamp DATETIME DEFAULT CURRENT_TIMESTAMP)] *)
Record row : Type := mkrow {
  id : N;
  user_message : str;
  bot_response : str;
  timestamp_ : timestamp
}.

(** The table, rows in insertion order, and the entry [sqlite_sequence]
    keeps for it: the largest rowid the table has ever held. *)
Record table : Type := mktable { rows : list row; seq : N }.

(** The database file: [None] while the table has not been created. *)
Definition db := option table.

Inductive error : Type :=
| Unavailable      (* the database cannot be opened or written *)
| NoSuchTable      (* no such table: conversations *)
| EncodeError      (* a parameter is not encodable as UTF-8 *)
| Full.            (* the largest rowid has been used *)

Definition MAX_ROWID : N := 9223372036854775807.

(** A [str] binds to a TEXT parameter when it has a UTF-8 encoding, that is
    when it holds no surrogate code point. *)
Definition encodable (s : str) : bool :=
  forallb (fun c => negb ((0xD800 <=? c) && (c <=? 0xDFFF))) s.

Definition largest_rowid (t : table) : N :=
  fold_right N.max (seq t) (map id (rows t)).

(** [INSERT INTO conversations (user_message, bot_response) VALUES (?, ?)]
    followed by [commit]: the store assigns the identifier, one more than
    the largest ever used, and the timestamp, its clock reading [now]. *)
Definition insert (available : bool) (now : timestamp) (um br : str) (d : db)
  : error + db :=
  if negb available then inl Unavailable
  else
    match d with
    | None => inl NoSuchTable
    | Some t =>
      if negb (encodable um && encodable br) then inl EncodeError
      else if MAX_ROWID <=? largest_rowid t then inl Full
      else
        let rowid := largest_rowid t + 1 in
        inr (Some (mktable (rows t ++ [mkrow rowid um br now]) rowid))
    end.

End Sqlite.

(** [init_db]: [CREATE TABLE IF NOT EXISTS conversations ...] *)
Definition init_db (d : Sqlite.db) : Sqlite.db :=
  match d with
  | None => Some (Sqlite.mktable [] 0)
  | Some t => Some t
  end.

(** ** The matcher *)

Import Datetime.

Definition greeting_response : str := Eval vm_compute in
  U "Hello there! How can I assist you today? (नमस्कार! मी तुम्हाला कशी मदत करू शकतो?)".
Definition how_are_you_response : str := Eval vm_compute in
  U "I'm a bot, so I'm doing great! Thanks for asking. (मी ठीक आहे, विचारल्याबद्दल धन्यवाद!)".
Definition help_response : str := Eval vm_compute in
  U "I can help with basic inquiries. Try asking about my purpose or capabilities. (मी तुम्हाला काही मूलभूत प्रश्नांची उत्तरे देऊ शकतो. माझ्या उद्देश किंवा क्षमतेबद्दल विचारून पहा.)".
Definition purpose_response : str := Eval vm_compute in
  U "I am a simple chatbot designed to demonstrate a basic web application with a Flask backend and SQLite logging. (मी एक साधा चॅटबॉट आहे जो फ्लास्क बॅकएंड आणि SQLite लॉगिंगसह एक वेब ॲप्लिकेशन दर्शविण्यासाठी डिझाइन केला आहे.)".
Definition goodbye_response : str := Eval vm_compute in
  U "Goodbye! Feel free to return if you have more questions. (पुन्हा भेटू! तुम्हाला आणखी काही प्रश्न असल्यास, नक्की परत या.)".
Definition name_response : str := Eval vm_compute in
  U "I don't have a name, but you can call me Chatbot. (माझे काही नाव नाही, पण तुम्ही मला चॅटबॉट म्हणू शकता.)".

(** The f-string of the date rule; [d1] and [d2] are the values of its two
    calls of [datetime.date.today()], in evaluation order. *)
Definition date_response (d1 d2 : date) : str :=
  U "Today's date is: " ++ strftime_B_d_Y d1 ++
  U ". (आजची तारीख आहे: " ++ strftime_B_d_Y d2 ++ U ")".

(** The string returned when a regular expression matches. *)
Definition regex_response : str := Eval vm_compute in
  U "I am a simple chatbot designed to demonstrate a basic web application with a Flask backend and SQLite logging. (मी एक साधा चॅटबॉट आहे जो फ्लास्क बॅकएंड आणि SQLite लॉगिंगसह एक वेब ॲप्लिकेशन दर्शविण्यासाठी डिझाइन केला आहे.)".

Definition fallback_response : str := Eval vm_compute in
  U "I'm sorry, I don't understand that. Can you please rephrase? (माफ करा, मला समजले नाही. कृपया पुन्हा सांगा.)".

(** The dictionary [RESPONSES], in insertion order (the order in which a
    [dict] is iterated); it is built on every call, from the clock
    readings of that call. *)
Definition RESPONSES (d1 d2 : date) : list (list str * str) :=
  [ ([U "hello"; U "hi"; U "नमस्कार"; U "कसा आहेस"], greeting_response);
    ([U "how are you"; U "कसा आहेस"], how_are_you_response);
    ([U "help"; U "मदत"], help_response);
    ([U "purpose"; U "capabilities"; U "work"; U "उद्देश"; U "क्षमता"], purpose_response);
    ([U "goodbye"; U "bye"; U "पुन्हा भेटू"], goodbye_response);
    ([U "name"; U "what's your name"; U "what is your name"; U "नाव";
      U "तुमचं नाव काय आहे"], name_response);
    ([U "date"; U "today's date"; U "आजची तारीख"; U "तारीख"], date_response d1 d2) ].

(** [r'\b(work|do)\b.*\b(you)\b'] *)
Definition pattern_work_you : Re.regex :=
  Re.Cat Re.WordBoundary
    (Re.Cat (Re.Group (Re.Alt (Re.literal (U "work")) (Re.literal (U "do"))))
      (Re.Cat Re.WordBoundary
        (Re.Cat (Re.Star Re.Dot)
          (Re.Cat Re.WordBoundary
            (Re.Cat (Re.Group (Re.literal (U "you"))) Re.WordBoundary))))).

(** [r'काय काम करतो'] *)
Definition pattern_kay_kaam : Re.regex := Re.literal (U "काय काम करतो").

(** The loop [for keywords, response in RESPONSES.items()]: the response
    of the first entry one of whose keywords occurs in the message. *)
Fixpoint first_match (items : list (list str * str)) (user_message : str)
  : option str :=
  match items with
  | [] => None
  | (keywords, response) :: items' =>
    if any_in keywords user_message then Some response
    else first_match items' user_message
  end.

Definition get_bot_response (d1 d2 : date) (user_message : str) : str :=
  let user_message := lower user_message in
  let RESPONSES := RESPONSES d1 d2 in
  if Re.search pattern_work_you user_message
     || Re.search pattern_kay_kaam user_message
  then regex_response
  else
    match first_match RESPONSES user_message with
    | Some response => response
    | None => fallback_response
    end.

(** ** The route handler *)

(** What one request finds in its environment: the two clock readings of
    the matcher, whether the database file can be opened and written, and
    the store's clock reading. *)
Record env : Type := mkenv {
  today_1 : date;
  today_2 : date;
  store_available : bool;
  current_timestamp : Sqlite.timestamp
}.

(** The values [json.loads] builds from the request body: [None],
    [bool], [int], [float], [str], [list] and [dict]. *)
#[warnings="-register-all"]
Inductive json : Type :=
| JNull
| JBool (b : bool)
| JInt (n : Z)
| JFloat (x : spec_float)
| JString (s : str)
| JArray (items : list json)
| JObject (members : list (str * json)).

(** The truth value Python gives such a value (what [not] negates). *)
Definition truthy (v : json) : bool :=
  match v with
  | JNull => false
  | JBool b => b
  | JInt n => negb (Z.eqb n 0)
  | JFloat x => match x with S754_zero _ => false | _ => true end
  | JString s => match s with [] => false | _ :: _ => true end
  | JArray items => match items with [] => false | _ :: _ => true end
  | JObject members => match members with [] => false | _ :: _ => true end
  end.

Inductive exn : Type :=
| AttributeError                  (* the value has no method [lower] *)
| StoreError (e : Sqlite.error).  (* an exception of the [sqlite3] calls *)

Inductive reply : Type :=
| Response (bot_response : str)   (* [jsonify({"response": bot_response})] *)
| BadRequest (error : str)        (* [jsonify({"error": error}), 400] *)
| Raised (e : exn).               (* an exception leaves the handler *)

(** [chat], with what the matcher answers on strings as a parameter.
    The body of the request is a JSON object and [message] is the value
    of [request.json.get('message')]: [None] when the object has no such
    member, the value of the member otherwise (a null member gives
    Python's [None] as well).  On a value that is not a string the first
    statement of the matcher, [user_message.lower()], raises. *)
Definition chat_with (matcher : str -> str) (e : env)
  (message : option json) (d : Sqlite.db) : reply * Sqlite.db :=
  let user_message := match message with Some v => v | None => JNull end in
  if negb (truthy user_message) then (BadRequest (U "No message provided"), d)
  else
    match user_message with
    | JString text =>
      let bot_response := matcher text in
      match Sqlite.insert (store_available e) (current_timestamp e)
              text bot_response d with
      | inl err => (Raised (StoreError err), d)
      | inr d' => (Response bot_response, d')
      end
    | _ => (Raised AttributeError, d)
    end.

Definition chat (e : env) (message : option json) (d : Sqlite.db)
  : reply * Sqlite.db :=
  chat_with (get_bot_response (today_1 e) (today_2 e)) e message d.

(** A sequence of requests served one after the other. *)
Fixpoint serve (reqs : list (env * option json)) (d : Sqlite.db)
  : list reply * Sqlite.db :=
  match reqs with
  | [] => ([], d)
  | (e, message) :: reqs' =>
    let (r, d') := chat e message d in
    let (rs, d'') := serve reqs' d' in
    (r :: rs, d'')
  end.

(** ** Notions used to state the properties *)

(** A code point the lowercase mapping leaves alone. *)
Definition unmapped (c : N) : bool :=
  match Unicode.assoc c Unicode.lower_table with
  | Some _ => false
  | None => true
  end.

(** The textbook meaning of a pattern: [Matches s r i j] when [r] matches
    the characters of [s] from position [i] up to position [j]. *)
Inductive Matches (s : str) : Re.regex -> nat -> nat -> Prop :=
| MEps i : Matches s Re.Eps i i
| MChr c i : nth_error s i = Some c -> Matches s (Re.Chr c) i (S i)
| MDot c i :
    nth_error s i = Some c -> c <> Re.NEWLINE -> Matches s Re.Dot i (S i)
| MBoundary i : Re.at_boundary s i = true -> Matches s Re.WordBoundary i i
| MGroup r i j : Matches s r i j -> Matches s (Re.Group r) i j
| MCat r1 r2 i k j :
    Matches s r1 i k -> Matches s r2 k j -> Matches s (Re.Cat r1 r2) i j
| MAltL r1 r2 i j : Matches s r1 i j -> Matches s (Re.Alt r1 r2) i j
| MAltR r1 r2 i j : Matches s r2 i j -> Matches s (Re.Alt r1 r2) i j
| MStar0 r i : Matches s (Re.Star r) i i
| MStarS r i k j :
    Matches s r i k -> Matches s (Re.Star r) k j -> Matches s (Re.Star r) i j.

(** The positions reachable by repeating a one-step matcher, each round
    moving forward. *)
Inductive Reach (step : nat -> list nat) : nat -> nat -> Prop :=
| Reach0 i : Reach step i i
| ReachS i k j :
    In k (step i) -> (i < k)%nat -> Reach step k j -> Reach step i j.

(** [w] occurs in [s] at position [i]. *)
Definition occurs_at (s w : str) (i : nat) : Prop :=
  firstn (List.length w) (skipn i s) = w.

(** [w] occurs at position [i] as a word-boundary token: with a word
    boundary on both sides. *)
Definition token_at (s w : str) (i : nat) : Prop :=
  occurs_at s w i /\
  Re.at_boundary s i = true /\
  Re.at_boundary s (i + List.length w) = true.

(** No newline among the characters of [s] at positions [a .. b - 1]. *)
Definition same_line (s : str) (a b : nat) : Prop :=
  forall k, (a <= k < b)%nat -> nth_error s k <> Some Re.NEWLINE.

(** A word-boundary token "work" or "do" occurs before a later
    word-boundary token "you". *)
Definition work_or_do_then_you (s : str) : Prop :=
  exists w i j,
    (w = U "work" \/ w = U "do") /\
    token_at s w i /\ token_at s (U "you") j /\
    (i + List.length w <= j)%nat.

(** The same, with no newline between the two tokens. *)
Definition work_or_do_then_you_on_a_line (s : str) : Prop :=
  exists w i j,
    (w = U "work" \/ w = U "do") /\
    token_at s w i /\ token_at s (U "you") j /\
    (i + List.length w <= j)%nat /\
    same_line s (i + List.length w) j.

(** Regex rule 1 fires on an input: the pattern matches the lowercased
    message. *)
Definition rule1_fires (user_message : str) : bool :=
  Re.search pattern_work_you (lower user_message).

(** Regex rule 2 fires on an input. *)
Definition rule2_fires (user_message : str) : bool :=
  Re.search pattern_kay_kaam (lower user_message).

(** Rule [i] of the table, as (keywords, response). *)
Definition rule (d1 d2 : date) (i : nat) : option (list str * str) :=
  nth_error (RESPONSES d1 d2) i.

(** The input holds a trigger of the rule with these keywords: one of them
    occurs in the lowercased message. *)
Definition triggers (keywords : list str) (user_message : str) : Prop :=
  exists keyword, In keyword keywords /\
    contains (lower user_message) keyword = true.

(** The rows [n] successful requests append to a table whose largest
    identifier so far is [last]. *)
Fixpoint logged (last : N) (reqs : list (env * option json)) : list Sqlite.row :=
  match reqs with
  | [] => []
  | (e, message) :: reqs' =>
    match message with
    | Some (JString user_message) =>
      Sqlite.mkrow (last + 1) user_message
        (get_bot_response (today_1 e) (today_2 e) user_message)
        (current_timestamp e) :: logged (last + 1) reqs'
    | _ => logged last reqs'
    end
  end.

(** The bookkeeping of [AUTOINCREMENT]: no row has an identifier above
    the recorded one. *)
Definition consistent (t : Sqlite.table) : Prop :=
  Sqlite.largest_rowid t = Sqlite.seq t.

Definition is_response (r : reply) : Prop :=
  match r with
  | Response _ => True
  | _ => False
  end.

(** A date used in the examples. *)
Definition a_day : date := mkdate 2026 11 3.
Definition next_day : date := mkdate 2026 11 4.

(** Environments used in the examples: a store that can be written and
    one that cannot. *)
Definition env_up : env := mkenv a_day a_day true (U "2026-11-03 10:00:00").
Definition env_later : env := mkenv a_day next_day true (U "2026-11-03 23:59:59").
Definition env_down : env := mkenv a_day a_day false (U "2026-11-03 10:00:00").

(** Is a reply a response object? *)
Definition is_responseb (r : reply) : bool :=
  match r with
  | Response _ => true
  | _ => false
  end.

(** The number of response objects among the replies of a run. *)
Definition responses (rs : list reply) : nat :=
  List.length (filter is_responseb rs).

(** The strings [get_bot_response] chooses from at clock readings [d1],
    [d2]. *)
Definition canned (d1 d2 : date) : list str :=
  [greeting_response; how_are_you_response; help_response; purpose_response;
   goodbye_response; name_response; date_response d1 d2; fallback_response].

(** The space character. *)
Definition SPACE : N := 0x20.

(** Two closed strings differ. *)
Ltac differ := let H := fresh in intro H; vm_compute in H; discriminate H.

(** * Properties *)

(** ** [str.lower] is idempotent *)

Section LowerIdempotent.

Import Unicode.

Lemma assoc_In c t l : assoc c t = Some l -> In (c, l) t.
Proof.
  induction t as [|[k v] t IH]; simpl; [discriminate|].
  destruct (N.eqb_spec k c) as [->|_]; intros H.
  - left. congruence.
  - right. auto.
Qed.

Lemma lower_table_images_unmapped :
  forallb (fun kv => forallb unmapped (snd kv)) lower_table = true.
Proof. vm_compute. reflexivity. Qed.

Lemma to_lower_full_unmapped c : Forall (fun d => unmapped d = true) (to_lower_full c).
Proof.
  unfold to_lower_full. destruct (assoc c lower_table) as [l|] eqn:E.
  - apply assoc_In in E.
    pose proof lower_table_images_unmapped as H.
    rewrite forallb_forall in H. specialize (H _ E). simpl in H.
    apply Forall_forall. intros d Hd. rewrite forallb_forall in H. auto.
  - constructor; [|constructor]. unfold unmapped. now rewrite E.
Qed.

Lemma sigma_unmapped before after :
  unmapped (handle_capital_sigma before after) = true.
Proof.
  unfold handle_capital_sigma.
  match goal with |- context [if ?b then _ else _] => destruct b end;
    vm_compute; reflexivity.
Qed.

Lemma lower_ucs4_unmapped before c after :
  Forall (fun d => unmapped d = true) (lower_ucs4 before c after).
Proof.
  unfold lower_ucs4. destruct (c =? SIGMA).
  - constructor; [apply sigma_unmapped | constructor].
  - apply to_lower_full_unmapped.
Qed.

Lemma do_lower_unmapped s : forall before,
  Forall (fun d => unmapped d = true) (do_lower before s).
Proof.
  induction s as [|c s IH]; intros before; simpl.
  - constructor.
  - apply Forall_app. split; [apply lower_ucs4_unmapped | apply IH].
Qed.

Lemma unmapped_not_sigma c : unmapped c = true -> (c =? SIGMA) = false.
Proof.
  intros H. destruct (N.eqb_spec c SIGMA) as [->|]; [|reflexivity].
  vm_compute in H. discriminate.
Qed.

Lemma do_lower_fixed s : forall before,
  Forall (fun d => unmapped d = true) s -> do_lower before s = s.
Proof.
  induction s as [|c s IH]; intros before H; simpl; [reflexivity|].
  inversion H as [|? ? Hc Hs]; subst.
  unfold lower_ucs4. rewrite (unmapped_not_sigma _ Hc).
  unfold to_lower_full. unfold unmapped in Hc.
  destruct (assoc c lower_table); [discriminate|].
  simpl. f_equal. apply IH, Hs.
Qed.

End LowerIdempotent.

Lemma lower_idempotent s : lower (lower s) = lower s.
Proof. unfold lower. apply do_lower_fixed, do_lower_unmapped. Qed.

(** ** The matcher [Re.ends] computes the textbook meaning of a pattern *)

Section ReCorrect.

Import Re.
Local Open Scope nat_scope.

Variable s : str.

Lemma Matches_le r i j : Matches s r i j -> i <= j.
Proof. induction 1; lia. Qed.

Lemma Matches_bound r i j :
  Matches s r i j -> i <= List.length s -> j <= List.length s.
Proof.
  induction 1; intros Hi; auto;
    match goal with
    | H : nth_error _ _ = Some _ |- _ =>
      apply (f_equal (fun o => match o with Some _ => true | None => false end)) in H;
      destruct (nth_error_None s i) as [_ Hn];
      destruct (Nat.le_gt_cases (List.length s) i) as [Hge|Hlt];
      [rewrite (Hn Hge) in H; discriminate | lia]
    end.
Qed.

Lemma star_from_Reach step fuel : forall i j,
  In j (star_from fuel step i) -> Reach step i j.
Proof.
  induction fuel as [|fuel IH]; intros i j; simpl.
  - intros [<-|[]]. constructor.
  - intros [<-|H]; [constructor|].
    apply in_flat_map in H. destruct H as [k [Hk Hj]].
    apply filter_In in Hk. destruct Hk as [Hk Hlt].
    apply Nat.ltb_lt in Hlt.
    econstructor; eauto.
Qed.

Lemma Reach_star_from step L i j :
  Reach step i j ->
  (forall a b, a <= L -> In b (step a) -> b <= L) ->
  forall fuel, i <= L -> L <= fuel + i -> In j (star_from fuel step i).
Proof.
  intros HR Hstep. induction HR as [i|i k j Hk Hlt HR IH]; intros fuel Hi Hf.
  - destruct fuel; simpl; auto.
  - assert (k <= L) by eauto.
    destruct fuel as [|fuel]; [lia|]. simpl. right.
    apply in_flat_map. exists k. split.
    + apply filter_In. split; [assumption|]. now apply Nat.ltb_lt.
    + apply IH; lia.
Qed.

Lemma Reach_Matches r i j :
  (forall a b, In b (ends r s a) -> Matches s r a b) ->
  Reach (ends r s) i j -> Matches s (Star r) i j.
Proof.
  intros Hr. induction 1; [constructor|].
  econstructor; eauto.
Qed.

Lemma Matches_Star_Reach r :
  (forall a b, Matches s r a b -> a <= List.length s -> In b (ends r s a)) ->
  forall r' i j, Matches s r' i j -> r' = Star r -> i <= List.length s ->
  Reach (ends r s) i j.
Proof.
  intros Hr. induction 1; intros Heq Hi; try discriminate.
  - constructor.
  - injection Heq as ->.
    pose proof (Matches_le _ _ _ H) as Hle.
    pose proof (Matches_bound _ _ _ H Hi) as Hk.
    destruct (Nat.eq_dec i k) as [->|Hne].
    + apply IHMatches2; auto.
    + apply ReachS with k; [apply Hr; assumption | lia | apply IHMatches2; auto].
Qed.

Lemma ends_sound r : forall i j, In j (ends r s i) -> Matches s r i j.
Proof.
  induction r; intros i j; simpl.
  - intros [<-|[]]. constructor.
  - destruct (nth_error s i) as [c'|] eqn:E; [|intros []].
    destruct (N.eqb_spec c' c) as [->|]; [|intros []].
    intros [<-|[]]. now constructor.
  - destruct (nth_error s i) as [c'|] eqn:E; [|intros []].
    destruct (N.eqb_spec c' NEWLINE) as [->|]; [intros []|].
    intros [<-|[]]. econstructor; eauto.
  - destruct (at_boundary s i) eqn:E; [|intros []].
    intros [<-|[]]. now constructor.
  - intros H. constructor. auto.
  - intros H. apply in_flat_map in H. destruct H as [k [Hk Hj]].
    econstructor; eauto.
  - intros H. apply in_app_or in H. destruct H; [apply MAltL | apply MAltR]; auto.
  - intros H. apply Reach_Matches; [assumption|].
    eapply star_from_Reach; eassumption.
Qed.

Lemma ends_bound r i j :
  i <= List.length s -> In j (ends r s i) -> j <= List.length s.
Proof. intros Hi H. eapply Matches_bound; [apply ends_sound|]; eassumption. Qed.

Lemma ends_complete r : forall i j,
  Matches s r i j -> i <= List.length s -> In j (ends r s i).
Proof.
  induction r; intros i j HM Hi.
  - inversion HM; subst. simpl. auto.
  - inversion HM; subst. simpl.
    match goal with H : nth_error _ _ = _ |- _ => rewrite H end.
    rewrite N.eqb_refl. simpl. auto.
  - inversion HM; subst. simpl.
    match goal with H : nth_error _ _ = _ |- _ => rewrite H end.
    destruct (N.eqb_spec c NEWLINE); [contradiction|]. simpl. auto.
  - inversion HM; subst. simpl.
    match goal with H : at_boundary _ _ = _ |- _ => rewrite H end.
    simpl. auto.
  - inversion HM; subst. simpl. auto.
  - inversion HM; subst. simpl. apply in_flat_map.
    exists k. split; [auto|].
    apply IHr2; [assumption|]. eapply Matches_bound; eassumption.
  - inversion HM; subst; simpl; apply in_or_app; auto.
  - simpl. apply Reach_star_from with (L := List.length s).
    + eapply Matches_Star_Reach; eauto.
    + intros a b Ha Hb. eapply ends_bound; eassumption.
    + assumption.
    + lia.
Qed.

Theorem ends_iff r i j :
  i <= List.length s -> (In j (ends r s i) <-> Matches s r i j).
Proof.
  intros Hi. split; [apply ends_sound | intros H; apply ends_complete; assumption].
Qed.

Theorem search_iff r :
  search r s = true <->
  exists i j, i <= List.length s /\ Matches s r i j.
Proof.
  unfold search, match_at. rewrite existsb_exists. split.
  - intros [i [Hi H]]. apply in_seq in Hi.
    destruct (ends r s i) as [|j l] eqn:E; [discriminate|].
    exists i, j. split; [lia|]. apply ends_sound. rewrite E. now left.
  - intros [i [j [Hi H]]]. exists i. split; [apply in_seq; lia|].
    apply ends_complete in H; [|assumption].
    destruct (ends r s i); [destruct H | reflexivity].
Qed.

End ReCorrect.

(** ** What the two patterns match *)

Section Patterns.

Import Re.
Local Open Scope nat_scope.

Variable s : str.

Lemma Matches_cat r1 r2 i j :
  Matches s (Cat r1 r2) i j <-> exists k, Matches s r1 i k /\ Matches s r2 k j.
Proof.
  split.
  - intros H. inversion H; subst. eauto.
  - intros [k [H1 H2]]. econstructor; eauto.
Qed.

Lemma Matches_boundary i j :
  Matches s WordBoundary i j <-> j = i /\ at_boundary s i = true.
Proof.
  split.
  - intros H. inversion H; subst. auto.
  - intros [-> H]. now constructor.
Qed.

Lemma Matches_group r i j : Matches s (Group r) i j <-> Matches s r i j.
Proof.
  split.
  - intros H. now inversion H.
  - now constructor.
Qed.

Lemma Matches_alt r1 r2 i j :
  Matches s (Alt r1 r2) i j <-> Matches s r1 i j \/ Matches s r2 i j.
Proof.
  split.
  - intros H. inversion H; subst; auto.
  - intros [H|H]; [apply MAltL | apply MAltR]; assumption.
Qed.

Lemma skipn_cons_iff (l : str) : forall i c t,
  skipn i l = c :: t <-> nth_error l i = Some c /\ skipn (S i) l = t.
Proof.
  induction l as [|a l IH]; intros i c t.
  - destruct i; simpl; split; try discriminate; intros [H _]; discriminate.
  - destruct i as [|i].
    + simpl. split.
      * intros H. injection H as -> ->. auto.
      * intros [H1 H2]. congruence.
    + change (skipn (S i) (a :: l)) with (skipn i l).
      change (nth_error (a :: l) (S i)) with (nth_error l i).
      change (skipn (S (S i)) (a :: l)) with (skipn (S i) l).
      apply IH.
Qed.

Lemma occurs_at_nil i : occurs_at s [] i.
Proof. reflexivity. Qed.

Lemma occurs_at_cons c w i :
  occurs_at s (c :: w) i <-> nth_error s i = Some c /\ occurs_at s w (S i).
Proof.
  unfold occurs_at. simpl List.length. split.
  - intros H. destruct (skipn i s) as [|a t] eqn:E; [discriminate|].
    simpl in H. injection H as -> H.
    apply skipn_cons_iff in E. destruct E as [E1 E2].
    rewrite E2. auto.
  - intros [H1 H2].
    assert (E : skipn i s = c :: skipn (S i) s) by (apply skipn_cons_iff; auto).
    rewrite E. change (firstn (S (List.length w)) (c :: skipn (S i) s))
      with (c :: firstn (List.length w) (skipn (S i) s)).
    now rewrite H2.
Qed.

Lemma occurs_at_cons_length c w i :
  occurs_at s (c :: w) i -> i + List.length (c :: w) <= List.length s.
Proof.
  revert c i. induction w as [|c' w IH]; intros c i H;
    apply occurs_at_cons in H; destruct H as [H1 H2].
  - assert (i < List.length s) by (apply nth_error_Some; congruence).
    simpl. lia.
  - apply IH in H2. simpl in *. lia.
Qed.

Lemma Matches_literal w : forall i j,
  Matches s (literal w) i j <-> j = i + List.length w /\ occurs_at s w i.
Proof.
  induction w as [|c w IH]; intros i j.
  - simpl. split.
    + intros H. inversion H; subst. split; [lia | apply occurs_at_nil].
    + intros [-> _]. rewrite Nat.add_0_r. constructor.
  - change (literal (c :: w)) with (Cat (Chr c) (literal w)).
    rewrite Matches_cat, occurs_at_cons. split.
    + intros [k [H1 H2]]. inversion H1; subst.
      apply IH in H2. destruct H2 as [-> H2]. simpl. repeat split; auto; lia.
    + intros [-> [H1 H2]]. exists (S i). split; [now constructor|].
      apply IH. split; [simpl; lia | assumption].
Qed.

Lemma Matches_star_dot_inv r i j :
  Matches s r i j -> r = Star Dot ->
  i <= j /\ forall k, i <= k < j -> exists c, nth_error s k = Some c /\ c <> NEWLINE.
Proof.
  induction 1; intros Heq; try discriminate.
  - split; [lia|]. intros k Hk. lia.
  - injection Heq as ->. destruct (IHMatches2 eq_refl) as [Hle Hk].
    inversion H; subst. split; [lia|].
    intros k' Hk'. destruct (Nat.eq_dec k' i) as [->|Hne]; [eauto|].
    apply Hk. lia.
Qed.

Lemma Matches_star_dot i j :
  Matches s (Star Dot) i j <->
  i <= j /\ forall k, i <= k < j -> exists c, nth_error s k = Some c /\ c <> NEWLINE.
Proof.
  split; [intros H; eapply Matches_star_dot_inv; eauto|].
  intros [Hle Hk].
  remember (j - i) as n eqn:Hn. revert i Hle Hk Hn.
  induction n as [|n IH]; intros i Hle Hk Hn.
  - assert (j = i) as -> by lia. constructor.
  - destruct (Hk i) as [c [Hc Hnl]]; [lia|].
    apply MStarS with (S i); [econstructor; eauto|].
    apply IH; [lia | intros k Hk'; apply Hk; lia | lia].
Qed.

(** A pattern that is a plain word is a substring test. *)
Lemma startswith_occurs (l w : str) : startswith l w = true <-> firstn (List.length w) l = w.
Proof.
  revert l. induction w as [|p w IH]; intros l; simpl.
  - destruct l; simpl; split; auto.
  - destruct l as [|c l]; simpl; [split; discriminate|].
    rewrite andb_true_iff, N.eqb_eq, IH. split.
    + intros [-> ->]. reflexivity.
    + intros H. injection H as -> H. rewrite H. auto.
Qed.

Lemma contains_occurs (l w : str) :
  contains l w = true <-> exists i, i <= List.length l /\ firstn (List.length w) (skipn i l) = w.
Proof.
  induction l as [|c l IH].
  - change (contains [] w) with (startswith [] w || false)%bool.
    rewrite orb_false_r, startswith_occurs. split.
    + intros H. exists 0. auto.
    + intros [i [_ H]]. now rewrite skipn_nil in H.
  - change (contains (c :: l) w) with (startswith (c :: l) w || contains l w)%bool.
    rewrite orb_true_iff, startswith_occurs, IH. split.
    + intros [H|[i [Hi H]]].
      * exists 0. split; [lia | exact H].
      * exists (S i). split; [simpl; lia | exact H].
    + intros [[|i] [Hi H]].
      * left. exact H.
      * right. exists i. split; [simpl in Hi; lia | exact H].
Qed.

Lemma search_literal w : search (literal w) s = contains s w.
Proof.
  apply eq_true_iff_eq. rewrite search_iff, contains_occurs. split.
  - intros [i [j [Hi H]]]. apply Matches_literal in H. destruct H as [_ H].
    exists i. auto.
  - intros [i [Hi H]]. exists i, (i + List.length w). split; [assumption|].
    apply Matches_literal. auto.
Qed.

(** The first pattern: a token "work" or "do", then any characters other
    than a newline, then a token "you". *)
Lemma search_work_you :
  search pattern_work_you s = true <-> work_or_do_then_you_on_a_line s.
Proof.
  rewrite search_iff. unfold pattern_work_you, work_or_do_then_you_on_a_line, token_at.
  split.
  - intros [i [e [Hi H]]].
    apply Matches_cat in H. destruct H as [k0 [Hb0 H]].
    apply Matches_boundary in Hb0. destruct Hb0 as [-> Hb0].
    apply Matches_cat in H. destruct H as [k1 [Hw H]].
    apply Matches_group, Matches_alt in Hw.
    apply Matches_cat in H. destruct H as [k2 [Hb1 H]].
    apply Matches_boundary in Hb1. destruct Hb1 as [-> Hb1].
    apply Matches_cat in H. destruct H as [k3 [Hdots H]].
    apply Matches_star_dot in Hdots. destruct Hdots as [Hle Hdots].
    apply Matches_cat in H. destruct H as [k4 [Hb2 H]].
    apply Matches_boundary in Hb2. destruct Hb2 as [-> Hb2].
    apply Matches_cat in H. destruct H as [k5 [Hy Hb3]].
    apply Matches_group, Matches_literal in Hy. destruct Hy as [-> Hy].
    apply Matches_boundary in Hb3. destruct Hb3 as [_ Hb3].
    assert (Hline : same_line s k1 k3).
    { intros k Hk Hn. destruct (Hdots k Hk) as [c [Hc Hne]]. congruence. }
    destruct Hw as [Hw|Hw]; apply Matches_literal in Hw; destruct Hw as [-> Hw].
    + exists (U "work"), i, k3. repeat split; auto.
    + exists (U "do"), i, k3. repeat split; auto.
  - intros [w [i [j [Hw [[Ho [Hb0 Hb1]] [[Hy [Hb2 Hb3]] [Hle Hline]]]]]]].
    assert (Hj : j + List.length (U "you") <= List.length s)
      by (apply occurs_at_cons_length with (c := 121%N) (w := [111%N; 117%N]); exact Hy).
    exists i, (j + List.length (U "you")). split; [lia|].
    apply Matches_cat. exists i. split; [apply Matches_boundary; auto|].
    apply Matches_cat. exists (i + List.length w). split.
    { apply Matches_group, Matches_alt.
      destruct Hw as [->| ->]; [left | right]; apply Matches_literal; auto. }
    apply Matches_cat. exists (i + List.length w). split; [apply Matches_boundary; auto|].
    apply Matches_cat. exists j. split.
    { apply Matches_star_dot. split; [assumption|].
      intros k Hk. destruct (nth_error s k) as [c|] eqn:E.
      - exists c. split; [reflexivity|]. intros ->. exact (Hline k Hk E).
      - apply nth_error_None in E. lia. }
    apply Matches_cat. exists j. split; [apply Matches_boundary; auto|].
    apply Matches_cat. exists (j + List.length (U "you")). split.
    { apply Matches_group, Matches_literal. auto. }
    apply Matches_boundary. auto.
Qed.

End Patterns.

(** ** [strftime('%B %d, %Y')] tells dates apart *)

Section Strftime.

Lemma digits_of_uint_inj u : forall v, digits_of_uint u = digits_of_uint v -> u = v.
Proof.
  induction u; intros v H; destruct v; simpl in H;
    try discriminate; try reflexivity;
    injection H as H; f_equal; auto.
Qed.

Lemma decimal_inj n m : decimal n = decimal m -> n = m.
Proof.
  unfold decimal. intros H. apply digits_of_uint_inj in H.
  rewrite <- (DecimalN.Unsigned.of_to n), <- (DecimalN.Unsigned.of_to m).
  now rewrite H.
Qed.

Lemma digit_inj a b : digit a = digit b -> a = b.
Proof. unfold digit. apply N.add_cancel_l. Qed.

Lemma two_digits_inj a b : two_digits a = two_digits b -> a = b.
Proof.
  unfold two_digits. intros H.
  assert (Hq : digit (a / 10) = digit (b / 10)) by congruence.
  assert (Hr : digit (a mod 10) = digit (b mod 10)) by congruence.
  apply digit_inj in Hq, Hr.
  rewrite (N.div_mod a 10), (N.div_mod b 10) by discriminate.
  now rewrite Hq, Hr.
Qed.

Lemma month_cases m :
  1 <= m <= 12 ->
  In m [1; 2; 3; 4; 5; 6; 7; 8; 9; 10; 11; 12].
Proof.
  intros H. destruct m as [|p]; [lia|].
  do 4 (try destruct p as [p|p|]); simpl; try lia; tauto.
Qed.

Lemma month_name_inj m m' x y :
  1 <= m <= 12 -> 1 <= m' <= 12 ->
  month_name m ++ U " " ++ x = month_name m' ++ U " " ++ y ->
  m = m' /\ x = y.
Proof.
  intros Hm Hm' H.
  apply month_cases in Hm. apply month_cases in Hm'.
  simpl in Hm, Hm'.
  repeat (destruct Hm as [<-|Hm]; [|]); try contradiction;
    repeat (destruct Hm' as [<-|Hm']; [|]); try contradiction;
    cbv in H; try discriminate H; split; congruence.
Qed.

Lemma strftime_inj d d' :
  valid d -> valid d' -> strftime_B_d_Y d = strftime_B_d_Y d' -> d = d'.
Proof.
  intros [_ [Hm _]] [_ [Hm' _]] H. unfold strftime_B_d_Y in H.
  apply month_name_inj in H; [|assumption..]. destruct H as [Em H].
  change (U ", ") with [44; 32] in H.
  assert (Ed : two_digits (day d) = two_digits (day d'))
    by (unfold two_digits in *; simpl in H; congruence).
  assert (Hy : decimal (year d) = decimal (year d'))
    by (unfold two_digits in H; simpl in H; congruence).
  apply two_digits_inj in Ed.
  apply decimal_inj in Hy.
  destruct d, d'; simpl in *; congruence.
Qed.

Lemma year_numerals_4 :
  forallb (fun k => Nat.eqb (List.length (decimal (1000 + N.of_nat k))) 4)
    (seq 0 (N.to_nat 9000)) = true.
Proof. vm_compute. reflexivity. Qed.

(** A year from 1000 to 9999 prints as four characters. *)
Lemma decimal_year_length y :
  1000 <= y <= 9999 -> List.length (decimal y) = 4%nat.
Proof.
  intros H. pose proof year_numerals_4 as F. rewrite forallb_forall in F.
  specialize (F (N.to_nat (y - 1000))).
  replace (1000 + N.of_nat (N.to_nat (y - 1000))) with y in F by lia.
  apply Nat.eqb_eq, F, in_seq. lia.
Qed.

End Strftime.

(** ** The scan of the table and the two regular expressions *)

Section FirstMatch.

Variable items : list (list str * str).
Variable m : str.

Lemma first_match_nth : forall i keywords response,
  nth_error items i = Some (keywords, response) ->
  any_in keywords m = true ->
  (forall j keywords' response', (j < i)%nat ->
     nth_error items j = Some (keywords', response') ->
     any_in keywords' m = false) ->
  first_match items m = Some response.
Proof.
  induction items as [|[ks r] l IH]; intros i keywords response Hi Hk Hbefore.
  - destruct i; discriminate.
  - destruct i as [|i]; simpl in *.
    + injection Hi as -> ->. now rewrite Hk.
    + rewrite (Hbefore 0%nat ks r) by (reflexivity || lia).
      apply IH with (i := i) (keywords := keywords); auto.
      intros j ks' r' Hj Hn. apply (Hbefore (S j) ks' r'); [lia | exact Hn].
Qed.

Lemma first_match_Some response :
  first_match items m = Some response ->
  exists i keywords,
    nth_error items i = Some (keywords, response) /\
    any_in keywords m = true /\
    forall j keywords' response', (j < i)%nat ->
      nth_error items j = Some (keywords', response') ->
      any_in keywords' m = false.
Proof.
  induction items as [|[ks r] l IH]; simpl; [discriminate|].
  destruct (any_in ks m) eqn:E.
  - intros H. injection H as ->. exists 0%nat, ks. repeat split; auto.
    intros j ? ? Hj. lia.
  - intros H. destruct (IH H) as [i [keywords [Hi [Hk Hb]]]].
    exists (S i), keywords. repeat split; auto.
    intros [|j] ks' r' Hj Hn; simpl in Hn.
    + injection Hn as <- <-. exact E.
    + apply (Hb j ks' r'); [lia | exact Hn].
Qed.

Lemma first_match_None :
  first_match items m = None <->
  forall keywords response, In (keywords, response) items -> any_in keywords m = false.
Proof.
  induction items as [|[ks r] l IH]; simpl.
  - split; [intros _ ? ? [] | reflexivity].
  - destruct (any_in ks m) eqn:E.
    + split; [discriminate|]. intros H. rewrite (H ks r) in E; [discriminate | now left].
    + rewrite IH. split.
      * intros H ks' r' [Heq|Hin]; [injection Heq as <- <-; exact E | eauto].
      * intros H ks' r' Hin. apply (H ks' r'). now right.
Qed.

End FirstMatch.

Lemma any_in_triggers keywords s :
  any_in keywords (lower s) = true <-> triggers keywords s.
Proof. unfold any_in, triggers. apply existsb_exists. Qed.

Lemma any_in_no_trigger keywords s :
  any_in keywords (lower s) = false <-> ~ triggers keywords s.
Proof.
  rewrite <- any_in_triggers. destruct (any_in keywords (lower s)).
  - split; [discriminate | intros H; exfalso; auto].
  - split; [discriminate | reflexivity].
Qed.

Lemma get_bot_response_regex d1 d2 s :
  rule1_fires s = true \/ rule2_fires s = true ->
  get_bot_response d1 d2 s = regex_response.
Proof.
  unfold rule1_fires, rule2_fires, get_bot_response. intros [H|H]; rewrite H.
  - reflexivity.
  - now rewrite orb_true_r.
Qed.

Lemma get_bot_response_table d1 d2 s :
  rule1_fires s = false -> rule2_fires s = false ->
  get_bot_response d1 d2 s =
  match first_match (RESPONSES d1 d2) (lower s) with
  | Some response => response
  | None => fallback_response
  end.
Proof.
  unfold rule1_fires, rule2_fires, get_bot_response. intros -> ->. reflexivity.
Qed.

(** The second pattern is a substring test. *)
Lemma rule2_fires_contains s :
  rule2_fires s = contains (lower s) (U "काय काम करतो").
Proof. unfold rule2_fires, pattern_kay_kaam. apply search_literal. Qed.

Lemma date_response_nonempty d1 d2 : date_response d1 d2 <> [].
Proof.
  unfold date_response. change (U "Today's date is: ") with (84 :: U "oday's date is: ").
  discriminate.
Qed.

Lemma date_response_head d1 d2 : hd 0 (date_response d1 d2) = 84.
Proof.
  unfold date_response. change (U "Today's date is: ") with (84 :: U "oday's date is: ").
  reflexivity.
Qed.

(** Every response of the table is one of seven strings. *)
Lemma RESPONSES_In d1 d2 keywords response :
  In (keywords, response) (RESPONSES d1 d2) ->
  In response [greeting_response; how_are_you_response; help_response;
               purpose_response; goodbye_response; name_response;
               date_response d1 d2].
Proof.
  unfold RESPONSES. simpl.
  intros H. repeat (destruct H as [H|H]; [injection H as _ <-; tauto|]).
  contradiction.
Qed.

Example respond_hello d1 d2 : get_bot_response d1 d2 (U "hello") = greeting_response.
Proof. vm_compute. reflexivity. Qed.

Example respond_bye d1 d2 : get_bot_response d1 d2 (U "bye") = goodbye_response.
Proof. vm_compute. reflexivity. Qed.

Example respond_asdkjasd d1 d2 : get_bot_response d1 d2 (U "asdkjasd") = fallback_response.
Proof. vm_compute. reflexivity. Qed.

(** ** The matcher: totality, priorities and the fallback *)

Lemma responses_nonempty d1 d2 response :
  In response [greeting_response; how_are_you_response; help_response;
               purpose_response; goodbye_response; name_response;
               date_response d1 d2] ->
  response <> [].
Proof.
  simpl. intros H.
  repeat (destruct H as [<-|H]; [first [apply date_response_nonempty | differ]|]).
  contradiction.
Qed.

Lemma nth_error_RESPONSES_In d1 d2 i keywords response :
  nth_error (RESPONSES d1 d2) i = Some (keywords, response) ->
  In (keywords, response) (RESPONSES d1 d2).
Proof. apply nth_error_In. Qed.

Lemma table_first_match d1 d2 s i keywords response :
  rule1_fires s = false -> rule2_fires s = false ->
  rule d1 d2 i = Some (keywords, response) ->
  triggers keywords s ->
  (forall j keywords' response', (j < i)%nat ->
     rule d1 d2 j = Some (keywords', response') -> ~ triggers keywords' s) ->
  get_bot_response d1 d2 s = response.
Proof.
  intros E1 E2 Hi Hk Hbefore.
  rewrite get_bot_response_table by assumption.
  rewrite (first_match_nth (RESPONSES d1 d2) (lower s) i keywords response); auto.
  - now apply any_in_triggers.
  - intros j ks' r' Hj Hn. apply any_in_no_trigger. eauto.
Qed.

(** C1: for every input string [get_bot_response] returns one string, which
    is never empty; when neither regular expression fires and no keyword
    of the table occurs in the lowercased input, that string is the fixed
    fallback response, itself non-empty. *)
Theorem C1_respond_total_nonempty :
  forall d1 d2 s,
    (exists response, get_bot_response d1 d2 s = response /\ response <> []) /\
    (rule1_fires s = false -> rule2_fires s = false ->
     (forall keywords response,
        In (keywords, response) (RESPONSES d1 d2) -> ~ triggers keywords s) ->
     get_bot_response d1 d2 s = fallback_response) /\
    fallback_response <> [].
Proof.
  intros d1 d2 s. split; [|split].
  - eexists. split; [reflexivity|].
    destruct (rule1_fires s) eqn:E1;
      [rewrite get_bot_response_regex by auto; differ|].
    destruct (rule2_fires s) eqn:E2;
      [rewrite get_bot_response_regex by auto; differ|].
    rewrite get_bot_response_table by assumption.
    destruct (first_match (RESPONSES d1 d2) (lower s)) as [r|] eqn:E; [|differ].
    apply first_match_Some in E. destruct E as [i [ks [Hi _]]].
    apply nth_error_RESPONSES_In, RESPONSES_In in Hi.
    eapply responses_nonempty; eassumption.
  - intros E1 E2 Hno. rewrite get_bot_response_table by assumption.
    replace (first_match (RESPONSES d1 d2) (lower s)) with (@None str); [reflexivity|].
    symmetry. apply first_match_None. intros ks r Hin.
    apply any_in_no_trigger. eauto.
  - differ.
Qed.

Lemma no_trigger_asdkjasd keywords response :
  In (keywords, response) (RESPONSES a_day a_day) -> ~ triggers keywords (U "asdkjasd").
Proof.
  intros H. apply any_in_no_trigger. revert H. unfold RESPONSES. simpl.
  intros H. repeat (destruct H as [H|H]; [injection H as <- _; vm_compute; reflexivity|]).
  contradiction.
Qed.

Lemma C1_respond_total_nonempty_witness :
  get_bot_response a_day a_day (U "asdkjasd") = fallback_response.
Proof.
  apply (proj1 (proj2 (C1_respond_total_nonempty a_day a_day (U "asdkjasd")))).
  - vm_compute. reflexivity.
  - vm_compute. reflexivity.
  - exact no_trigger_asdkjasd.
Defined.

(** C2, as stated, fails: "do you help" holds a trigger of the third rule
    ("help") and no trigger of the two rules before it, yet the answer is
    not the third rule's response, because the first regular expression
    fires on "do ... you". *)
Lemma C2_counterexample :
  rule a_day a_day 2 = Some ([U "help"; U "मदत"], help_response) /\
  triggers [U "help"; U "मदत"] (U "do you help") /\
  (forall j keywords response, (j < 2)%nat ->
     rule a_day a_day j = Some (keywords, response) ->
     ~ triggers keywords (U "do you help")) /\
  get_bot_response a_day a_day (U "do you help") <> help_response.
Proof.
  split; [reflexivity|]. split; [|split].
  - apply any_in_triggers. vm_compute. reflexivity.
  - intros j ks r Hj H. apply any_in_no_trigger.
    destruct j as [|[|j]]; [| |lia]; injection H as <- _; vm_compute; reflexivity.
  - differ.
Qed.

(** C2 (amended): when neither regular expression fires, an input that
    holds a trigger of table rule [i] and no trigger of any rule before it
    is answered with rule [i]'s response; triggers are looked for in the
    lowercased input. *)
Theorem C2_first_match_wins :
  forall d1 d2 s i keywords response,
    rule1_fires s = false -> rule2_fires s = false ->
    rule d1 d2 i = Some (keywords, response) ->
    triggers keywords s ->
    (forall j keywords' response', (j < i)%nat ->
       rule d1 d2 j = Some (keywords', response') -> ~ triggers keywords' s) ->
    get_bot_response d1 d2 s = response.
Proof. exact table_first_match. Qed.

Lemma C2_first_match_wins_witness :
  get_bot_response a_day a_day (U "I need help") = help_response.
Proof.
  apply (C2_first_match_wins a_day a_day (U "I need help") 2 [U "help"; U "मदत"]).
  - vm_compute. reflexivity.
  - vm_compute. reflexivity.
  - reflexivity.
  - apply any_in_triggers. vm_compute. reflexivity.
  - intros j ks r Hj H. apply any_in_no_trigger.
    destruct j as [|[|j]]; [| |lia]; injection H as <- _; vm_compute; reflexivity.
Defined.

(** C3: an input on which either regular expression fires is answered with
    the fixed response of the regular expressions, whatever triggers of
    the table it also holds; the table is consulted only afterwards. *)
Theorem C3_regex_preempts_table :
  forall d1 d2 s,
    rule1_fires s = true \/ rule2_fires s = true ->
    get_bot_response d1 d2 s = regex_response.
Proof. exact get_bot_response_regex. Qed.

Lemma C3_regex_preempts_table_witness :
  triggers [U "hello"; U "hi"; U "नमस्कार"; U "कसा आहेस"] (U "hello, what do you do") /\
  regex_response <> greeting_response /\
  get_bot_response a_day a_day (U "hello, what do you do") = regex_response.
Proof.
  split; [apply any_in_triggers; vm_compute; reflexivity|].
  split; [differ|].
  apply (C3_regex_preempts_table a_day a_day (U "hello, what do you do")).
  left. vm_compute. reflexivity.
Defined.

(** ** The first regular expression *)

(** C4, as stated, fails: in "do", newline, "you" a token "do" occurs
    before a later token "you", yet the pattern does not match, since [.]
    does not match a newline. *)
Lemma C4_counterexample :
  lower (U "do" ++ [Re.NEWLINE] ++ U "you") = U "do" ++ [Re.NEWLINE] ++ U "you" /\
  work_or_do_then_you (lower (U "do" ++ [Re.NEWLINE] ++ U "you")) /\
  rule1_fires (U "do" ++ [Re.NEWLINE] ++ U "you") = false.
Proof.
  split; [vm_compute; reflexivity|]. split; [|vm_compute; reflexivity].
  exists (U "do"), 0%nat, 3%nat.
  split; [now right|]. unfold token_at, occurs_at.
  repeat split; vm_compute; try reflexivity. lia.
Qed.

(** C4 (amended): regex rule 1 fires exactly when, in the lowercased
    input, a word-boundary token "work" or "do" occurs before a later
    word-boundary token "you" with no newline between the two.  It fires
    for "what work do you do", which is answered with the fixed
    "demonstrate a basic web application" response, and it does not fire
    for "you do work sometimes". *)
Theorem C4_rule1_characterised :
  (forall s, rule1_fires s = true <-> work_or_do_then_you_on_a_line (lower s)) /\
  rule1_fires (U "what work do you do") = true /\
  (forall d1 d2, get_bot_response d1 d2 (U "what work do you do") = regex_response) /\
  contains regex_response (U "demonstrate a basic web application") = true /\
  rule1_fires (U "you do work sometimes") = false.
Proof.
  split; [intros s; apply search_work_you|].
  split; [vm_compute; reflexivity|].
  split; [intros d1 d2; apply get_bot_response_regex; left; vm_compute; reflexivity|].
  split; vm_compute; reflexivity.
Qed.

(** ** The date rule *)

Lemma U_space : U " " = [32].
Proof. vm_compute. reflexivity. Qed.

Lemma U_comma : U ", " = [44; 32].
Proof. vm_compute. reflexivity. Qed.

Lemma separator_head z : hd 0 (U ". (आजची तारीख आहे: " ++ z) = 46.
Proof. vm_compute. reflexivity. Qed.

(** A numeral ends where a full stop follows. *)
Lemma digits_of_uint_stop u : forall v x y,
  hd 0 x = 46 -> hd 0 y = 46 ->
  digits_of_uint u ++ x = digits_of_uint v ++ y -> u = v.
Proof.
  induction u; intros v x y Hx Hy H; destruct v; cbn [digits_of_uint app] in H;
    try reflexivity;
    try (rewrite H in Hx; cbn [hd] in Hx; vm_compute in Hx; discriminate Hx);
    try (rewrite <- H in Hy; cbn [hd] in Hy; vm_compute in Hy; discriminate Hy);
    try (apply (f_equal (hd 0)) in H; cbn [hd] in H; vm_compute in H; discriminate H);
    (f_equal; apply (IHu v x y Hx Hy); apply (f_equal (@tl N)) in H; exact H).
Qed.

Lemma date_response_inj d d' :
  valid d -> valid d' -> date_response d d = date_response d' d' -> d = d'.
Proof.
  intros [_ [Hm _]] [_ [Hm' _]] H. unfold date_response in H.
  apply app_inv_head in H. unfold strftime_B_d_Y in H.
  repeat rewrite <- app_assoc in H.
  apply month_name_inj in H; [|assumption..]. destruct H as [Em H].
  rewrite U_comma in H. unfold two_digits in H. cbn [app] in H.
  assert (Ed : two_digits (day d) = two_digits (day d')).
  { unfold two_digits. f_equal; [|f_equal].
    - exact (f_equal (hd 0) H).
    - exact (f_equal (fun l => hd 0 (tl l)) H). }
  apply (f_equal (fun l => tl (tl (tl (tl l))))) in H. cbn [tl] in H.
  apply digits_of_uint_stop in H; try apply separator_head.
  apply two_digits_inj in Ed.
  assert (Ey : year d = year d') by (apply decimal_inj; unfold decimal; now rewrite H).
  destruct d, d'; cbn [year month day] in *; congruence.
Qed.

Lemma respond_todays_date d1 d2 :
  get_bot_response d1 d2 (U "today's date") = date_response d1 d2.
Proof.
  rewrite get_bot_response_table by (vm_compute; reflexivity).
  rewrite (first_match_nth (RESPONSES d1 d2) (lower (U "today's date")) 6
             [U "date"; U "today's date"; U "आजची तारीख"; U "तारीख"]
             (date_response d1 d2)).
  - reflexivity.
  - reflexivity.
  - vm_compute. reflexivity.
  - intros j ks r Hj H.
    do 6 (destruct j as [|j]; [injection H as <- _; vm_compute; reflexivity|]). lia.
Qed.

(** C5: the rule whose triggers include "date" answers with a string that
    embeds the clock readings of the call, each formatted as
    "Month DD, YYYY"; [respond("today's date")] is that string, and on two
    different days it is two different strings with different dates in
    them. *)
Theorem C5_date_recomputed :
  (forall d1 d2,
     rule d1 d2 6 = Some ([U "date"; U "today's date"; U "आजची तारीख"; U "तारीख"],
                          date_response d1 d2)) /\
  (forall d1 d2,
     get_bot_response d1 d2 (U "today's date") =
     U "Today's date is: " ++ strftime_B_d_Y d1 ++
     U ". (आजची तारीख आहे: " ++ strftime_B_d_Y d2 ++ U ")") /\
  (forall d, valid d -> 1000 <= year d ->
     strftime_B_d_Y d =
     month_name (month d) ++ U " " ++ two_digits (day d) ++ U ", " ++ decimal (year d) /\
     month_name (month d) <> [] /\
     List.length (two_digits (day d)) = 2%nat /\
     List.length (decimal (year d)) = 4%nat) /\
  (forall d d', valid d -> valid d' -> d <> d' ->
     strftime_B_d_Y d <> strftime_B_d_Y d' /\
     get_bot_response d d (U "today's date") <> get_bot_response d' d' (U "today's date")).
Proof.
  split; [reflexivity|]. split; [exact respond_todays_date|]. split.
  - intros d Hv Hy. split; [reflexivity|]. split; [|split; [reflexivity|]].
    + destruct Hv as [_ [Hm _]]. apply month_cases in Hm. simpl in Hm.
      repeat (destruct Hm as [<-|Hm]; [differ|]). contradiction.
    + apply decimal_year_length. destruct Hv as [[_ Hmax] _]. unfold MAXYEAR in Hmax. lia.
  - intros d d' Hv Hv' Hne. split.
    + intros H. apply Hne. now apply strftime_inj.
    + rewrite !respond_todays_date. intros H. apply Hne. now apply date_response_inj.
Qed.

Lemma valid_a_day : valid a_day.
Proof. unfold valid, a_day, MINYEAR, MAXYEAR. simpl. vm_compute. intuition discriminate. Qed.

Lemma valid_next_day : valid next_day.
Proof. unfold valid, next_day, MINYEAR, MAXYEAR. simpl. vm_compute. intuition discriminate. Qed.

Lemma C5_date_recomputed_witness :
  strftime_B_d_Y a_day = U "November 03, 2026" /\
  strftime_B_d_Y next_day = U "November 04, 2026" /\
  get_bot_response a_day a_day (U "today's date") <>
  get_bot_response next_day next_day (U "today's date").
Proof.
  split; [vm_compute; reflexivity|]. split; [vm_compute; reflexivity|].
  apply (proj2 (proj2 (proj2 C5_date_recomputed)) a_day next_day).
  - exact valid_a_day.
  - exact valid_next_day.
  - discriminate.
Defined.

(** ** Case *)

(** C6: [get_bot_response] gives the same answer on an input and on its
    lowercased form, at the same clock readings; "HELLO there" gets the
    greeting that "hello" gets. *)
Theorem C6_case_insensitive :
  (forall d1 d2 s, get_bot_response d1 d2 s = get_bot_response d1 d2 (lower s)) /\
  (forall d1 d2,
     get_bot_response d1 d2 (U "HELLO there") = greeting_response /\
     get_bot_response d1 d2 (U "hello") = greeting_response).
Proof.
  split.
  - intros d1 d2 s. unfold get_bot_response. now rewrite lower_idempotent.
  - intros d1 d2. split; vm_compute; reflexivity.
Qed.

(** ** The keyword shared by the first two rules *)

Lemma first_rule_wins_on_kasa_ahes d1 d2 s :
  contains (lower s) (U "कसा आहेस") = true ->
  rule1_fires s = false -> rule2_fires s = false ->
  get_bot_response d1 d2 s = greeting_response.
Proof.
  intros Hk E1 E2.
  apply (table_first_match d1 d2 s 0
           [U "hello"; U "hi"; U "नमस्कार"; U "कसा आहेस"]); auto.
  - exists (U "कसा आहेस"). split; [|assumption].
    right; right; right; left; reflexivity.
  - intros j ? ? Hj. lia.
Qed.

(** C10: the keyword "कसा आहेस" belongs to the greeting rule and to the
    "how are you" rule, and the greeting rule comes first.  An input whose
    lowercased form holds it, holds none of "hello", "hi", "नमस्कार" and
    "how are you", and on which no regular expression fires, gets the
    greeting, not the "how are you" response; and whenever the
    "how are you" response is returned, the lowercased input holds
    "how are you" and does not hold "कसा आहेस". *)
Theorem C10_shared_keyword_goes_to_greeting :
  (forall d1 d2, exists keywords0 keywords1,
     rule d1 d2 0 = Some (keywords0, greeting_response) /\
     rule d1 d2 1 = Some (keywords1, how_are_you_response) /\
     In (U "कसा आहेस") keywords0 /\ In (U "कसा आहेस") keywords1) /\
  (forall d1 d2 s,
     contains (lower s) (U "कसा आहेस") = true ->
     contains (lower s) (U "hello") = false ->
     contains (lower s) (U "hi") = false ->
     contains (lower s) (U "नमस्कार") = false ->
     contains (lower s) (U "how are you") = false ->
     rule1_fires s = false -> rule2_fires s = false ->
     get_bot_response d1 d2 s = greeting_response /\
     get_bot_response d1 d2 s <> how_are_you_response) /\
  (forall d1 d2 s,
     get_bot_response d1 d2 s = how_are_you_response ->
     contains (lower s) (U "how are you") = true /\
     contains (lower s) (U "कसा आहेस") = false).
Proof.
  split; [|split].
  - intros d1 d2. do 2 eexists. split; [reflexivity|]. split; [reflexivity|].
    split; [right; right; right; left; reflexivity | right; left; reflexivity].
  - intros d1 d2 s Hk _ _ _ _ E1 E2.
    rewrite (first_rule_wins_on_kasa_ahes d1 d2 s Hk E1 E2).
    split; [reflexivity | differ].
  - intros d1 d2 s H.
    destruct (rule1_fires s) eqn:E1;
      [rewrite get_bot_response_regex in H by auto; vm_compute in H; discriminate H|].
    destruct (rule2_fires s) eqn:E2;
      [rewrite get_bot_response_regex in H by auto; vm_compute in H; discriminate H|].
    rewrite get_bot_response_table in H by assumption.
    destruct (first_match (RESPONSES d1 d2) (lower s)) as [r|] eqn:E;
      [|vm_compute in H; discriminate H].
    subst r. apply first_match_Some in E. destruct E as [i [ks [Hi [Hk Hb]]]].
    destruct i as [|i]; [injection Hi as _ Hi; vm_compute in Hi; discriminate Hi|].
    destruct i as [|i].
    + injection Hi as <-.
      specialize (Hb 0%nat _ _ (Nat.lt_0_succ 0) eq_refl).
      unfold any_in in Hb, Hk. cbn [existsb] in Hb, Hk.
      rewrite !orb_false_r in Hb. rewrite orb_false_r in Hk.
      apply orb_false_iff in Hb. destruct Hb as [_ Hb].
      apply orb_false_iff in Hb. destruct Hb as [_ Hb].
      apply orb_false_iff in Hb. destruct Hb as [_ Hb].
      rewrite Hb, orb_false_r in Hk. auto.
    + exfalso.
      do 5 (destruct i as [|i];
            [injection Hi as _ Hi; vm_compute in Hi; discriminate Hi|]).
      destruct i; discriminate Hi.
Qed.

Lemma C10_shared_keyword_goes_to_greeting_witness :
  get_bot_response a_day a_day (U "कसा आहेस") = greeting_response /\
  get_bot_response a_day a_day (U "कसा आहेस") <> how_are_you_response.
Proof.
  apply (proj1 (proj2 C10_shared_keyword_goes_to_greeting) a_day a_day (U "कसा आहेस"));
    vm_compute; reflexivity.
Defined.

(** ** The route handler and the store *)

Section Chat.

Import Sqlite.

Lemma chat_with_nonempty matcher e c m d :
  chat_with matcher e (Some (JString (c :: m))) d =
  match insert (store_available e) (current_timestamp e) (c :: m) (matcher (c :: m)) d with
  | inl err => (Raised (StoreError err), d)
  | inr d' => (Response (matcher (c :: m)), d')
  end.
Proof. reflexivity. Qed.

(** The requests [if not user_message] turns away. *)
Lemma chat_with_falsy matcher e message d :
  message = None \/ (exists v, message = Some v /\ truthy v = false) ->
  chat_with matcher e message d = (BadRequest (U "No message provided"), d).
Proof.
  unfold chat_with. intros [-> | [v [-> Hv]]]; [reflexivity|].
  now rewrite Hv.
Qed.

(** The others reach the matcher. *)
Lemma chat_with_truthy matcher e v d :
  truthy v = true ->
  chat_with matcher e (Some v) d =
  match v with
  | JString text =>
    match insert (store_available e) (current_timestamp e) text (matcher text) d with
    | inl err => (Raised (StoreError err), d)
    | inr d' => (Response (matcher text), d')
    end
  | _ => (Raised AttributeError, d)
  end.
Proof. unfold chat_with. intros ->. reflexivity. Qed.

Lemma chat_with_bad_request matcher e message d error :
  fst (chat_with matcher e message d) = BadRequest error <->
  (message = None \/ exists v, message = Some v /\ truthy v = false) /\
  error = U "No message provided".
Proof.
  split.
  - destruct message as [v|]; [|intros H; injection H as <-; auto].
    destruct (truthy v) eqn:Hv.
    + rewrite (chat_with_truthy _ _ _ _ Hv).
      destruct v; try discriminate.
      destruct (insert _ _ _ _ _); discriminate.
    + rewrite chat_with_falsy by eauto. intros H. injection H as <-. eauto.
  - intros [H ->]. now rewrite chat_with_falsy.
Qed.

(** When a write goes through, and what it leaves. *)
Lemma insert_inr available now um br d d' :
  insert available now um br d = inr d' <->
  exists t,
    available = true /\ d = Some t /\
    encodable um = true /\ encodable br = true /\
    largest_rowid t < MAX_ROWID /\
    d' = Some (mktable (rows t ++ [mkrow (largest_rowid t + 1) um br now])
                       (largest_rowid t + 1)).
Proof.
  unfold insert. destruct available; simpl.
  - destruct d as [t|].
    + destruct (encodable um) eqn:Eu; destruct (encodable br) eqn:Eb; simpl;
        try (split; [discriminate | intros [t' [_ [_ [? [? _]]]]]; discriminate]).
      destruct (N.leb_spec MAX_ROWID (largest_rowid t)) as [Hle|Hlt].
      * split; [discriminate|]. intros [t' [_ [Ht [_ [_ [Hlt _]]]]]].
        injection Ht as <-. lia.
      * split.
        -- intros H. injection H as <-. exists t. repeat split; auto.
        -- intros [t' [_ [Ht [_ [_ [_ ->]]]]]]. injection Ht as <-. reflexivity.
    + split; [discriminate|]. intros [t [_ [Ht _]]]. discriminate.
  - split; [discriminate|]. intros [t [Ha _]]. discriminate.
Qed.

Lemma fold_max_base b l : fold_right N.max b l = N.max b (fold_right N.max 0 l).
Proof.
  induction l as [|a l IH]; simpl.
  - lia.
  - rewrite IH. lia.
Qed.

Lemma consistent_insert t r :
  consistent t -> id r = largest_rowid t + 1 ->
  consistent (mktable (rows t ++ [r]) (id r)).
Proof.
  unfold consistent, largest_rowid. simpl. intros Ht Hr.
  rewrite map_app, fold_right_app. simpl.
  rewrite fold_max_base in Ht, Hr. rewrite fold_max_base. lia.
Qed.

Lemma serve_cons e message reqs d :
  serve ((e, message) :: reqs) d =
  (fst (chat e message d) :: fst (serve reqs (snd (chat e message d))),
   snd (serve reqs (snd (chat e message d)))).
Proof.
  simpl. destruct (chat e message d) as [r d1]. simpl.
  destruct (serve reqs d1). reflexivity.
Qed.

Lemma chat_response e message d :
  is_response (fst (chat e message d)) ->
  exists m t,
    message = Some (JString m) /\ d = Some t /\
    largest_rowid t < MAX_ROWID /\
    chat e message d =
    (Response (get_bot_response (today_1 e) (today_2 e) m),
     Some (mktable
             (rows t ++ [mkrow (largest_rowid t + 1) m
                           (get_bot_response (today_1 e) (today_2 e) m)
                           (current_timestamp e)])
             (largest_rowid t + 1))).
Proof.
  unfold chat. destruct message as [v|]; [|simpl; contradiction].
  destruct (truthy v) eqn:Hv;
    [|rewrite chat_with_falsy by eauto; simpl; contradiction].
  rewrite (chat_with_truthy _ _ _ _ Hv).
  destruct v as [| | | |m| |]; try (simpl; contradiction).
  destruct (insert _ _ _ _ d) as [err|d'] eqn:E; simpl; [contradiction|].
  intros _. apply insert_inr in E.
  destruct E as [t [_ [-> [_ [_ [Hlt ->]]]]]].
  exists m, t. auto.
Qed.

(** What a run of successful requests leaves in a consistent table. *)
Lemma serve_logged reqs : forall t,
  consistent t ->
  Forall is_response (fst (serve reqs (Some t))) ->
  exists t',
    snd (serve reqs (Some t)) = Some t' /\ consistent t' /\
    rows t' = rows t ++ logged (seq t) reqs /\
    Forall (fun req => exists m, snd req = Some (JString m)) reqs /\
    fst (serve reqs (Some t)) =
    map (fun req => match snd req with
                    | Some (JString m) =>
                      Response (get_bot_response (today_1 (fst req))
                                  (today_2 (fst req)) m)
                    | _ => BadRequest (U "No message provided")
                    end) reqs.
Proof.
  induction reqs as [|[e message] reqs IH]; intros t Ht Hok.
  - exists t. simpl. rewrite List.app_nil_r. auto.
  - rewrite serve_cons in *. simpl fst in Hok. simpl snd.
    inversion Hok as [|? ? Hr Hrest]; subst.
    destruct (chat_response _ _ _ Hr) as [m [t0 [-> [Heq [Hlt Hchat]]]]].
    injection Heq as <-. rewrite Hchat in *. simpl fst in *. simpl snd in *.
    set (r := mkrow _ _ _ _) in *.
    assert (Hc : consistent (mktable (rows t ++ [r]) (id r)))
      by (apply consistent_insert; auto).
    destruct (IH _ Hc Hrest) as [t' [Hs [Hc' [Hrows [Hall Hreplies]]]]].
    exists t'. split; [exact Hs|]. split; [exact Hc'|]. split; [|split].
    + rewrite Hrows. cbn [rows seq logged today_1 today_2 current_timestamp].
      rewrite <- List.app_assoc. cbn [app]. subst r. cbn [id].
      unfold consistent in Ht. rewrite Ht. reflexivity.
    + constructor; [exists m; reflexivity | exact Hall].
    + cbn [map fst snd]. f_equal. exact Hreplies.
Qed.

Lemma logged_nth reqs : forall last k e m,
  Forall (fun req => exists m, snd req = Some (JString m)) reqs ->
  nth_error reqs k = Some (e, Some (JString m)) ->
  nth_error (logged last reqs) k =
  Some (mkrow (last + N.of_nat (S k)) m
          (get_bot_response (today_1 e) (today_2 e) m) (current_timestamp e)).
Proof.
  induction reqs as [|[e0 msg0] reqs IH]; intros last k e m Hall Hk.
  - destruct k; discriminate.
  - inversion Hall as [|? ? [m0 Hm0] Hall']; subst. simpl in Hm0. subst msg0.
    destruct k as [|k]; simpl in *.
    + injection Hk as -> ->. do 2 f_equal. 
    + rewrite (IH (last + 1) k e m Hall' Hk). do 2 f_equal. lia.
Qed.

Lemma logged_length reqs : forall last,
  Forall (fun req => exists m, snd req = Some (JString m)) reqs ->
  List.length (logged last reqs) = List.length reqs.
Proof.
  induction reqs as [|[e0 msg0] reqs IH]; intros last Hall; [reflexivity|].
  inversion Hall as [|? ? [m0 Hm0] Hall']; subst. simpl in Hm0. subst msg0.
  simpl. now rewrite IH.
Qed.

End Chat.


(** The values whose truth value is false. *)
Lemma truthy_false v :
  truthy v = false <->
  v = JNull \/ v = JBool false \/ v = JInt 0 \/
  (exists sign, v = JFloat (S754_zero sign)) \/
  v = JString [] \/ v = JArray [] \/ v = JObject [].
Proof.
  split.
  - destruct v as [|[|]|n|x|s|items|members]; simpl; intros H;
      try discriminate; auto.
    + apply negb_false_iff, Z.eqb_eq in H. subst. auto.
    + destruct x; try discriminate. do 3 right. left. eauto.
    + destruct s; [auto 10 | discriminate].
    + destruct items; [auto 10 | discriminate].
    + destruct members; [auto 10 | discriminate].
  - intros [->|[->|[->|[[sign ->]|[->|[->| ->]]]]]]; reflexivity.
Qed.



(** C8: after [n] successful calls of [chat] on a freshly initialised
    store, the table holds exactly [n] rows; the [k]-th row (from 0) has
    the identifier [k + 1], given by the store, the message and the
    response of the [k]-th call, and the store's clock reading of that
    call; so identifiers are distinct and ascending. *)
Theorem C8_log_of_successful_calls :
  forall reqs,
    Forall is_response (fst (serve reqs (init_db None))) ->
    exists t,
      snd (serve reqs (init_db None)) = Some t /\
      List.length (Sqlite.rows t) = List.length reqs /\
      map Sqlite.id (Sqlite.rows t) =
        map (fun k => N.of_nat (S k)) (List.seq 0 (List.length reqs)) /\
      (forall k e message, nth_error reqs k = Some (e, message) ->
         exists m,
           message = Some (JString m) /\
           nth_error (fst (serve reqs (init_db None))) k =
             Some (Response (get_bot_response (today_1 e) (today_2 e) m)) /\
           nth_error (Sqlite.rows t) k =
             Some (Sqlite.mkrow (N.of_nat (S k)) m
                     (get_bot_response (today_1 e) (today_2 e) m)
                     (current_timestamp e))) /\
      (forall a b ra rb, (a < b)%nat ->
         nth_error (Sqlite.rows t) a = Some ra ->
         nth_error (Sqlite.rows t) b = Some rb ->
         Sqlite.id ra < Sqlite.id rb).
Proof.
  intros reqs Hok. simpl init_db in *.
  destruct (serve_logged reqs (Sqlite.mktable [] 0) eq_refl Hok)
    as [t [Hs [_ [Hrows [Hall Hreplies]]]]].
  simpl in Hrows.
  assert (Hkth : forall k e message, nth_error reqs k = Some (e, message) ->
            exists m, message = Some (JString m) /\
              nth_error (Sqlite.rows t) k =
              Some (Sqlite.mkrow (N.of_nat (S k)) m
                      (get_bot_response (today_1 e) (today_2 e) m)
                      (current_timestamp e))).
  { intros k e message Hk.
    pose proof (proj1 (Forall_forall _ _) Hall _ (nth_error_In _ _ Hk)) as [m Hm].
    simpl in Hm. subst message. exists m. split; [reflexivity|].
    rewrite Hrows, (logged_nth reqs 0 k e m Hall Hk). reflexivity. }
  assert (Hlen : List.length (Sqlite.rows t) = List.length reqs)
    by (rewrite Hrows; apply logged_length, Hall).
  assert (Hid : forall k r, nth_error (Sqlite.rows t) k = Some r ->
            Sqlite.id r = N.of_nat (S k)).
  { intros k r Hr.
    assert (Hlt : (k < List.length reqs)%nat)
      by (rewrite <- Hlen; apply nth_error_Some; congruence).
    destruct (nth_error reqs k) as [[e message]|] eqn:E;
      [|apply nth_error_None in E; lia].
    destruct (Hkth _ _ _ E) as [m [_ Hrow]]. rewrite Hrow in Hr.
    injection Hr as <-. reflexivity. }
  exists t. split; [exact Hs|]. split; [exact Hlen|]. split; [|split].
  - apply nth_error_ext. intros k.
    rewrite !nth_error_map, nth_error_seq, <- Hlen.
    destruct (nth_error (Sqlite.rows t) k) as [r|] eqn:E; simpl.
    + assert (Hlt : (k < List.length (Sqlite.rows t))%nat)
        by (apply nth_error_Some; congruence).
      apply Nat.ltb_lt in Hlt. rewrite Hlt. simpl. f_equal. now apply Hid.
    + apply nth_error_None in E.
      destruct (Nat.ltb_spec k (List.length (Sqlite.rows t))); [lia | reflexivity].
  - intros k e message Hk. destruct (Hkth _ _ _ Hk) as [m [-> Hrow]].
    exists m. split; [reflexivity|]. split; [|exact Hrow].
    rewrite Hreplies, nth_error_map, Hk. reflexivity.
  - intros a b ra rb Hab Ha Hb.
    rewrite (Hid _ _ Ha), (Hid _ _ Hb). lia.
Qed.

Lemma C8_log_of_successful_calls_witness :
  exists t,
    snd (serve [(env_up, Some (JString (U "hello")));
                (env_later, Some (JString (U "today's date")))]
           (init_db None)) = Some t /\
    Sqlite.rows t =
      [Sqlite.mkrow 1 (U "hello") greeting_response (U "2026-11-03 10:00:00");
       Sqlite.mkrow 2 (U "today's date") (date_response a_day next_day)
         (U "2026-11-03 23:59:59")].
Proof.
  destruct (C8_log_of_successful_calls
              [(env_up, Some (JString (U "hello")));
               (env_later, Some (JString (U "today's date")))])
    as [t [Hs _]].
  - vm_compute. repeat constructor.
  - exists t. split; [exact Hs|].
    vm_compute in Hs. injection Hs as <-. vm_compute. reflexivity.
Defined.

(** C9: when the write to the store fails, [chat] lets the failure out as
    an error: the request ends with that exception, no response object is
    returned and the store is left as it was.  The response the matcher
    has computed does not depend on the store: a request with the same
    message and clock readings whose write goes through returns it. *)
Theorem C9_failed_write_fails_request :
  forall e m d err,
    m <> [] ->
    Sqlite.insert (store_available e) (current_timestamp e) m
      (get_bot_response (today_1 e) (today_2 e) m) d = inl err ->
    chat e (Some (JString m)) d = (Raised (StoreError err), d) /\
    (forall bot_response,
       fst (chat e (Some (JString m)) d) <> Response bot_response) /\
    (forall e' d0 d1,
       today_1 e' = today_1 e -> today_2 e' = today_2 e ->
       Sqlite.insert (store_available e') (current_timestamp e') m
         (get_bot_response (today_1 e) (today_2 e) m) d0 = inr d1 ->
       chat e' (Some (JString m)) d0 =
       (Response (get_bot_response (today_1 e) (today_2 e) m), d1)).
Proof.
  intros e m d err Hm H. destruct m as [|c m]; [contradiction|].
  assert (Hchat : chat e (Some (JString (c :: m))) d = (Raised (StoreError err), d))
    by (unfold chat; rewrite chat_with_nonempty, H; reflexivity).
  split; [exact Hchat|]. split.
  - intros r. rewrite Hchat. discriminate.
  - intros e' d0 d1 H1 H2 Hins. unfold chat.
    rewrite chat_with_nonempty, H1, H2, Hins. reflexivity.
Qed.

Lemma C9_failed_write_fails_request_witness :
  chat env_down (Some (JString (U "bye"))) (init_db None) =
    (Raised (StoreError Sqlite.Unavailable), init_db None) /\
  chat env_up (Some (JString (U "bye"))) None =
    (Raised (StoreError Sqlite.NoSuchTable), None).
Proof.
  split.
  - apply (C9_failed_write_fails_request env_down (U "bye") (init_db None)
             Sqlite.Unavailable); [discriminate | vm_compute; reflexivity].
  - apply (C9_failed_write_fails_request env_up (U "bye") None
             Sqlite.NoSuchTable); [discriminate | vm_compute; reflexivity].
Defined.
(** * Further properties of the code *)

(** ** The store across requests *)

Section Store.

Import Sqlite.

Lemma chat_step e message t :
  (exists m,
     message = Some (JString m) /\
     chat e message (Some t) =
     (Response (get_bot_response (today_1 e) (today_2 e) m),
      Some (mktable
              (rows t ++ [mkrow (largest_rowid t + 1) m
                            (get_bot_response (today_1 e) (today_2 e) m)
                            (current_timestamp e)])
              (largest_rowid t + 1)))) \/
  (is_responseb (fst (chat e message (Some t))) = false /\
   snd (chat e message (Some t)) = Some t).
Proof.
  destruct (is_responseb (fst (chat e message (Some t)))) eqn:E.
  - left. assert (H : is_response (fst (chat e message (Some t))))
      by (destruct (fst (chat e message (Some t))); simpl in *; auto; discriminate).
    destruct (chat_response _ _ _ H) as [m [t0 [-> [Heq [_ Hchat]]]]].
    injection Heq as <-. exists m. auto.
  - right. split; [reflexivity|].
    unfold chat in *. destruct message as [v|]; [|reflexivity].
    destruct (truthy v) eqn:Hv; [|now rewrite chat_with_falsy by eauto].
    rewrite (chat_with_truthy _ _ _ _ Hv) in *.
    destruct v; try reflexivity.
    destruct (insert _ _ _ _ _) as [err|d'] eqn:Ei; [reflexivity | discriminate E].
Qed.

Lemma largest_rowid_bound t r : In r (rows t) -> id r <= largest_rowid t.
Proof.
  unfold largest_rowid. induction (rows t) as [|a l IH]; simpl; [contradiction|].
  intros [->|H]; [lia|]. specialize (IH H). lia.
Qed.

Lemma largest_rowid_insert t r :
  id r = largest_rowid t + 1 ->
  largest_rowid (mktable (rows t ++ [r]) (id r)) = id r.
Proof.
  unfold largest_rowid. cbn [rows seq]. intros Hr.
  rewrite map_app, fold_right_app. cbn [map fold_right].
  rewrite fold_max_base in Hr. rewrite fold_max_base. lia.
Qed.



(** The rows a run appends, in any mix of requests. *)
Lemma serve_appends reqs : forall t,
  exists t' new,
    snd (serve reqs (Some t)) = Some t' /\
    rows t' = rows t ++ new /\
    List.length new = responses (fst (serve reqs (Some t))) /\
    (forall r, In r new -> largest_rowid t < id r) /\
    (forall a b ra rb, (a < b)%nat ->
       nth_error new a = Some ra -> nth_error new b = Some rb -> id ra < id rb) /\
    (forall r, In r new -> id r <= largest_rowid t').
Proof.
  induction reqs as [|[e message] reqs IH]; intros t.
  - exists t, []. cbn [serve fst snd]. rewrite List.app_nil_r.
    repeat split; auto; try contradiction. intros [|a] b ? ? _ H; discriminate H.
  - rewrite serve_cons. cbn [fst snd].
    destruct (chat_step e message t) as [[m [-> Hchat]]|[Hr Hs]].
    + rewrite Hchat. cbn [fst snd]. set (r := mkrow _ _ _ _).
      change (largest_rowid t + 1) with (id r).
      assert (Hl : largest_rowid (mktable (rows t ++ [r]) (id r)) = id r)
        by (apply largest_rowid_insert; reflexivity).
      destruct (IH (mktable (rows t ++ [r]) (id r)))
        as [t' [new [Hs' [Hrows [Hlen [Hgt [Hasc Hle]]]]]]].
      rewrite Hl in Hgt. cbn [rows] in Hrows.
      exists t', (r :: new). split; [exact Hs'|]. split; [|split; [|split; [|split]]].
      * rewrite Hrows, <- List.app_assoc. reflexivity.
      * unfold responses in *. cbn [filter is_responseb List.length]. now rewrite Hlen.
      * intros r' [<-|H]; [subst r; cbn [id]; lia|].
        specialize (Hgt r' H). subst r. cbn [id] in *. lia.
      * intros [|a] [|b] ra rb Hab Ha Hb; cbn [nth_error] in *; try lia.
        -- injection Ha as <-. apply Hgt. eapply nth_error_In; eassumption.
        -- apply (Hasc a b); auto; lia.
      * intros r' [<-|H]; [|auto].
        apply largest_rowid_bound. rewrite Hrows. apply in_or_app. left.
        apply in_or_app. right. now left.
    + rewrite Hs.
      destruct (IH t) as [t' [new [Hs' [Hrows [Hlen [Hgt [Hasc Hle]]]]]]].
      exists t', new. split; [exact Hs'|]. split; [exact Hrows|].
      split; [|auto].
      unfold responses in *. cbn [filter]. rewrite Hr. exact Hlen.
Qed.

(** X3: the log is append-only, whatever the requests.  A run of requests
    on a database with the table leaves every row that was there, in
    place, followed by one new row per response object returned; rejected
    and failed requests add nothing.  The new rows carry identifiers above
    every identifier the table held and ascending among themselves. *)
Theorem serve_append_only :
  forall reqs t,
    exists t' new,
      snd (serve reqs (Some t)) = Some t' /\
      rows t' = rows t ++ new /\
      List.length new = responses (fst (serve reqs (Some t))) /\
      (forall old r, In old (rows t) -> In r new -> id old < id r) /\
      (forall a b ra rb, (a < b)%nat ->
         nth_error new a = Some ra -> nth_error new b = Some rb -> id ra < id rb).
Proof.
  intros reqs t.
  destruct (serve_appends reqs t) as [t' [new [Hs [Hrows [Hlen [Hgt [Hasc _]]]]]]].
  exists t', new. repeat split; auto.
  intros old r Hold Hr. specialize (Hgt r Hr).
  pose proof (largest_rowid_bound t old Hold). lia.
Qed.

Lemma serve_append_only_witness :
  exists t' new,
    snd (serve [(env_up, None); (env_up, Some (JString (U "hello")));
            (env_down, Some (JString (U "bye")))]
           (Some (Sqlite.mktable
                    [Sqlite.mkrow 7 (U "hi") greeting_response (U "2026-11-02 09:00:00")] 7)))
    = Some t' /\
    Sqlite.rows t' =
      [Sqlite.mkrow 7 (U "hi") greeting_response (U "2026-11-02 09:00:00")] ++ new /\
    List.length new = 1%nat.
Proof.
  destruct (serve_append_only
              [(env_up, None); (env_up, Some (JString (U "hello")));
            (env_down, Some (JString (U "bye")))]
              (Sqlite.mktable
                 [Sqlite.mkrow 7 (U "hi") greeting_response (U "2026-11-02 09:00:00")] 7))
    as [t' [new [Hs [Hrows [Hlen _]]]]].
  exists t', new. split; [exact Hs|]. split; [exact Hrows|].
  rewrite Hlen. vm_compute. reflexivity.
Defined.

End Store.

(** ** What the matcher can answer *)

Lemma regex_response_is_purpose_response : regex_response = purpose_response.
Proof. reflexivity. Qed.

Lemma get_bot_response_In_canned d1 d2 s :
  In (get_bot_response d1 d2 s) (canned d1 d2).
Proof.
  unfold canned.
  destruct (rule1_fires s) eqn:E1;
    [rewrite get_bot_response_regex by auto; do 3 right; left; reflexivity|].
  destruct (rule2_fires s) eqn:E2;
    [rewrite get_bot_response_regex by auto; do 3 right; left; reflexivity|].
  rewrite get_bot_response_table by assumption.
  destruct (first_match (RESPONSES d1 d2) (lower s)) as [r|] eqn:E;
    [|do 7 right; left; reflexivity].
  apply first_match_Some in E. destruct E as [i [ks [Hi _]]].
  apply nth_error_RESPONSES_In, RESPONSES_In in Hi.
  cbn [In] in Hi |- *. intuition.
Qed.

(** X4: whatever the input, the answer is one of eight strings: the six
    fixed responses of the table (the response of the regular expressions
    is the "purpose" one), the date response built from the clock readings
    of the call, or the fallback.  Nothing of the input is ever copied
    into the answer. *)
Theorem get_bot_response_canned :
  forall d1 d2 s, In (get_bot_response d1 d2 s) (canned d1 d2).
Proof. exact get_bot_response_In_canned. Qed.

(** X5: the clock only shows in the date response.  At two pairs of clock
    readings an input gets the same answer, unless it gets the date
    response at both. *)
Theorem get_bot_response_clock :
  forall d1 d2 d1' d2' s,
    get_bot_response d1 d2 s = get_bot_response d1' d2' s \/
    (get_bot_response d1 d2 s = date_response d1 d2 /\
     get_bot_response d1' d2' s = date_response d1' d2').
Proof.
  intros d1 d2 d1' d2' s.
  destruct (rule1_fires s) eqn:E1;
    [left; rewrite !get_bot_response_regex by auto; reflexivity|].
  destruct (rule2_fires s) eqn:E2;
    [left; rewrite !get_bot_response_regex by auto; reflexivity|].
  rewrite !get_bot_response_table by assumption.
  unfold RESPONSES. cbn [first_match].
  do 6 (match goal with
        | |- context [if any_in ?k ?m then _ else _] =>
          destruct (any_in k m); [left; reflexivity|]
        end).
  match goal with
  | |- context [if any_in ?k ?m then _ else _] => destruct (any_in k m)
  end; [right; split; reflexivity | left; reflexivity].
Qed.

(** ** The second regular expression and the keywords *)

Lemma startswith_app (s w : str) :
  startswith s w = true <-> exists q, s = w ++ q.
Proof.
  revert s. induction w as [|p w IH]; intros s.
  - destruct s; (split; [intros _; eexists; reflexivity | reflexivity]).
  - destruct s as [|c s]; cbn [startswith].
    + split; [discriminate | intros [q H]; discriminate H].
    + rewrite andb_true_iff, N.eqb_eq, IH. split.
      * intros [-> [q ->]]. exists q. reflexivity.
      * intros [q H]. injection H as -> ->. eauto.
Qed.

(** [w in s] says that [s] is [w] with something before and after. *)
Lemma contains_app (s w : str) :
  contains s w = true <-> exists p q, s = p ++ w ++ q.
Proof.
  induction s as [|c s IH].
  - change (contains [] w) with (startswith [] w || false)%bool.
    rewrite orb_false_r, startswith_app. split.
    + intros [q H]. exists [], q. exact H.
    + intros [p [q H]]. destruct p; [eauto | discriminate H].
  - change (contains (c :: s) w) with (startswith (c :: s) w || contains s w)%bool.
    rewrite orb_true_iff, startswith_app, IH. split.
    + intros [[q H]|[p [q H]]].
      * exists [], q. exact H.
      * exists (c :: p), q. rewrite H. reflexivity.
    + intros [[|c' p] [q H]].
      * left. eauto.
      * right. injection H as _ H. eauto.
Qed.

Lemma contains_trans (s a b : str) :
  contains s a = true -> contains a b = true -> contains s b = true.
Proof.
  rewrite !contains_app. intros [p [q ->]] [p' [q' ->]].
  exists (p ++ p'), (q' ++ q). now rewrite <- !List.app_assoc.
Qed.

(** X6: the second regular expression is a substring test: it fires
    exactly when the lowercased input holds "काय काम करतो", and then the
    answer is the response of the regular expressions. *)
Theorem rule2_is_substring_test :
  forall s,
    rule2_fires s = contains (lower s) (U "काय काम करतो") /\
    (contains (lower s) (U "काय काम करतो") = true ->
     forall d1 d2, get_bot_response d1 d2 s = regex_response).
Proof.
  intros s. assert (H : rule2_fires s = contains (lower s) (U "काय काम करतो"))
    by (unfold rule2_fires, pattern_kay_kaam; apply search_literal).
  split; [exact H|]. intros Hc d1 d2.
  apply get_bot_response_regex. right. now rewrite H.
Qed.

Lemma rule2_is_substring_test_witness :
  get_bot_response a_day a_day (U "तू काय काम करतोस?") = regex_response.
Proof.
  apply (proj2 (rule2_is_substring_test (U "तू काय काम करतोस?"))).
  vm_compute. reflexivity.
Defined.


(** ** Blank messages and messages that can be stored *)

Section Blank.

Import Sqlite.

Lemma contains_head (s k : str) c :
  contains s k = true -> hd_error k = Some c -> In c s.
Proof.
  intros H Hc. destruct k as [|c' w]; [discriminate Hc|]. injection Hc as ->.
  apply contains_app in H. destruct H as [p [q ->]].
  apply in_or_app. right. now left.
Qed.

Lemma U_you : U "you" = [121; 111; 117].
Proof. vm_compute. reflexivity. Qed.

Lemma keywords_start_with_a_letter d1 d2 :
  Forall (fun rule =>
            Forall (fun k => exists c, hd_error k = Some c /\ c <> SPACE) (fst rule))
         (RESPONSES d1 d2).
Proof.
  unfold RESPONSES.
  repeat (apply Forall_cons || apply Forall_nil); cbn [fst];
    repeat (apply Forall_cons || apply Forall_nil);
    (eexists; split; [vm_compute; reflexivity | discriminate]).
Qed.

Lemma kay_kaam_head : hd_error (U "काय काम करतो") = Some 0x915.
Proof. vm_compute. reflexivity. Qed.

Variable s : str.
Hypothesis blank : Forall (fun c => c = SPACE) s.

Lemma blank_In c : In c s -> c = SPACE.
Proof. intros H. exact (proj1 (Forall_forall _ _) blank c H). Qed.

Lemma blank_lower : lower s = s.
Proof.
  unfold lower. apply do_lower_fixed.
  apply Forall_forall. intros c Hc. rewrite (blank_In c Hc). vm_compute. reflexivity.
Qed.

Lemma blank_rule1 : rule1_fires s = false.
Proof.
  destruct (rule1_fires s) eqn:E; [|reflexivity]. exfalso.
  unfold rule1_fires in E. rewrite blank_lower in E.
  apply search_work_you in E.
  destruct E as [w [i [j [_ [_ [[Hy _] _]]]]]].
  rewrite U_you in Hy. apply occurs_at_cons in Hy. destruct Hy as [Hy _].
  apply nth_error_In, blank_In in Hy. discriminate Hy.
Qed.

Lemma blank_rule2 : rule2_fires s = false.
Proof.
  destruct (rule2_fires s) eqn:E; [|reflexivity]. exfalso.
  rewrite rule2_fires_contains, blank_lower in E.
  pose proof (contains_head _ _ _ E kay_kaam_head) as Hin.
  apply blank_In in Hin. discriminate Hin.
Qed.

Lemma blank_fallback d1 d2 : get_bot_response d1 d2 s = fallback_response.
Proof.
  rewrite get_bot_response_table by (apply blank_rule1 || apply blank_rule2).
  replace (first_match (RESPONSES d1 d2) (lower s)) with (@None str); [reflexivity|].
  symmetry. apply first_match_None. intros ks r Hin.
  pose proof (proj1 (Forall_forall _ _) (keywords_start_with_a_letter d1 d2) _ Hin) as Hks.
  cbn [fst] in Hks. rewrite blank_lower.
  unfold any_in. destruct (existsb (contains s) ks) eqn:E; [|reflexivity]. exfalso.
  apply existsb_exists in E. destruct E as [k [Hk Hc]].
  destruct (proj1 (Forall_forall _ _) Hks k Hk) as [c [Hhd Hne]].
  apply Hne, blank_In. eapply contains_head; eassumption.
Qed.

Lemma blank_encodable : encodable s = true.
Proof.
  unfold encodable. apply forallb_forall. intros c Hc.
  rewrite (blank_In c Hc). reflexivity.
Qed.

End Blank.



(** ** Every answer can be stored *)

Section Storable.

Import Sqlite.

Lemma encodable_app a b : encodable (a ++ b) = (encodable a && encodable b)%bool.
Proof. unfold encodable. apply forallb_app. Qed.

Lemma encodable_low c l : c < 0xD800 -> encodable l = true -> encodable (c :: l) = true.
Proof.
  intros Hc Hl. unfold encodable in *. cbn [forallb]. rewrite Hl.
  destruct (N.leb_spec 0xD800 c); [lia|]. reflexivity.
Qed.

Lemma encodable_decimal n : encodable (decimal n) = true.
Proof.
  unfold decimal. induction (N.to_uint n); cbn [digits_of_uint];
    [reflexivity | apply encodable_low; [reflexivity | assumption] ..].
Qed.

Lemma days_in_month_le y m : days_in_month y m <= 31.
Proof.
  unfold days_in_month.
  repeat match goal with |- context [if ?b then _ else _] => destruct b end; lia.
Qed.

Lemma encodable_strftime d : valid d -> encodable (strftime_B_d_Y d) = true.
Proof.
  intros [_ [Hm [_ Hd]]]. unfold strftime_B_d_Y.
  pose proof (days_in_month_le (year d) (month d)) as Hle.
  rewrite !encodable_app, encodable_decimal.
  replace (encodable (U " ")) with true by (vm_compute; reflexivity).
  replace (encodable (U ", ")) with true by (vm_compute; reflexivity).
  assert (H2 : encodable (two_digits (day d)) = true).
  { unfold two_digits, digit.
    assert (day d / 10 <= day d)
      by (apply N.Div0.div_le_upper_bound; lia).
    assert (day d mod 10 < 10) by (apply N.mod_lt; discriminate).
    apply encodable_low; [lia|]. apply encodable_low; [lia | reflexivity]. }
  rewrite H2.
  apply month_cases in Hm. cbn [In] in Hm.
  repeat (destruct Hm as [<-|Hm]; [vm_compute; reflexivity|]). contradiction.
Qed.

Lemma encodable_response d1 d2 m :
  valid d1 -> valid d2 -> encodable (get_bot_response d1 d2 m) = true.
Proof.
  intros H1 H2. pose proof (get_bot_response_In_canned d1 d2 m) as H.
  unfold canned in H. cbn [In] in H.
  repeat (destruct H as [<-|H];
          [first [ vm_compute; reflexivity
                 | unfold date_response;
                   rewrite !encodable_app, !encodable_strftime by assumption;
                   vm_compute; reflexivity ]|]).
  contradiction.
Qed.

End Storable.



(** ** What it takes for the first regular expression to fire *)

Lemma U_work : U "work" = [119; 111; 114; 107].
Proof. vm_compute. reflexivity. Qed.

Lemma U_do : U "do" = [100; 111].
Proof. vm_compute. reflexivity. Qed.

Lemma occurs_contains (s : str) c w i :
  occurs_at s (c :: w) i -> contains s (c :: w) = true.
Proof.
  intros H. apply contains_occurs. exists i. split; [|exact H].
  apply occurs_at_cons_length in H. lia.
Qed.

(** X10: the first regular expression can fire only on an input whose
    lowercased form holds "you" and holds "work" or "do"; an input
    without "you" is always left to the second regular expression and
    the table. *)
Theorem rule1_needs_both_words :
  forall s,
    rule1_fires s = true ->
    contains (lower s) (U "you") = true /\
    (contains (lower s) (U "work") = true \/ contains (lower s) (U "do") = true).
Proof.
  intros s H. unfold rule1_fires in H. apply search_work_you in H.
  destruct H as [w [i [j [Hw [[Ho _] [[Hy _] _]]]]]].
  rewrite U_you in *. rewrite U_work, U_do in *. split.
  - eapply occurs_contains; eassumption.
  - destruct Hw as [-> | ->]; [left | right]; eapply occurs_contains; eassumption.
Qed.

Lemma rule1_needs_both_words_witness :
  contains (lower (U "What do YOU think?")) (U "you") = true /\
  (contains (lower (U "What do YOU think?")) (U "work") = true \/
   contains (lower (U "What do YOU think?")) (U "do") = true).
Proof.
  apply (rule1_needs_both_words (U "What do YOU think?")).
  vm_compute. reflexivity.
Defined.

(** ** The greeting rule comes first *)

(** X11: keywords are looked for as substrings, and the greeting rule is
    the first of the table: when no regular expression fires, an input
    whose lowercased form holds one of "hello", "hi", "नमस्कार",
    "कसा आहेस" anywhere, even inside a longer word, gets the greeting,
    whatever keywords of later rules it also holds. *)
Theorem greeting_rule_shadows_the_others :
  forall d1 d2 s keyword,
    In keyword [U "hello"; U "hi"; U "नमस्कार"; U "कसा आहेस"] ->
    contains (lower s) keyword = true ->
    rule1_fires s = false -> rule2_fires s = false ->
    get_bot_response d1 d2 s = greeting_response.
Proof.
  intros d1 d2 s keyword Hin Hc E1 E2.
  apply (table_first_match d1 d2 s 0
           [U "hello"; U "hi"; U "नमस्कार"; U "कसा आहेस"]); auto.
  - exists keyword. auto.
  - intros j ? ? Hj. lia.
Qed.

Lemma greeting_rule_shadows_the_others_witness :
  contains (lower (U "Is this the date?")) (U "date") = true /\
  get_bot_response a_day a_day (U "Is this the date?") = greeting_response.
Proof.
  split; [vm_compute; reflexivity|].
  apply (greeting_rule_shadows_the_others a_day a_day (U "Is this the date?") (U "hi")).
  - right; left; reflexivity.
  - vm_compute. reflexivity.
  - vm_compute. reflexivity.
  - vm_compute. reflexivity.
Defined.

(** ** Messages that are not strings *)


